(** * SpamGuard: the model lifecycle and inference engine of
      [backend/app/services/ml.py]

    A shallow embedding of class [MLService]: the Python strings it
    manipulates, the exceptions it lets escape, the model directory it reads
    and writes, its logger, and its methods in a state-and-exception monad.
    scikit-learn is outside the repository and enters as an interface
    ([Sklearn]); two small instances of it ([Toy], [ByClass]) are used to run
    the methods on concrete inputs. *)

From Stdlib Require Import List String Ascii Bool Arith ZArith QArith Lia.
From Stdlib Require Import Sorted Permutation DecimalString DecimalNat Lqa.
Import ListNotations.

Local Open Scope string_scope.
Local Open Scope list_scope.

(* ===================================================================== *)
(** ** Python [str] operations used by the service

    On texts whose characters are all below 128 ([isascii]), [str.lower]
    moves [A-Z] to [a-z] and [str.split()] cuts at the characters for which
    [str.isspace] holds: tab, LF, VT, FF, CR, FS, GS, RS, US and space. The
    functions below are these; outside such texts Python lower-cases and cuts
    by the Unicode tables, so every statement that rests on [lower] or
    [split] is made for texts that satisfy [isascii]. *)
(* ===================================================================== *)

Module PyStr.

Definition lower_char (c : ascii) : ascii :=
  let n := nat_of_ascii c in
  if (65 <=? n)%nat && (n <=? 90)%nat then ascii_of_nat (n + 32) else c.

(** [s.lower()] *)
Fixpoint lower (s : string) : string :=
  match s with
  | EmptyString => EmptyString
  | String c s' => String (lower_char c) (lower s')
  end.

Definition isspace (c : ascii) : bool :=
  let n := nat_of_ascii c in
  ((9 <=? n)%nat && (n <=? 13)%nat) || ((28 <=? n)%nat && (n <=? 32)%nat).

(** [s.split()]: [cur] is the word being read, most recent character
    first; a word is emitted when a whitespace character or the end of the
    text closes it, empty words never. *)
Fixpoint split_from (cur : list ascii) (s : string) : list string :=
  match s with
  | EmptyString =>
      match cur with
      | [] => []
      | _ => [string_of_list_ascii (rev cur)]
      end
  | String c s' =>
      if isspace c then
        match cur with
        | [] => split_from [] s'
        | _ => string_of_list_ascii (rev cur) :: split_from [] s'
        end
      else split_from (c :: cur) s'
  end.

Definition split (s : string) : list string := split_from [] s.

(** [sep.join(ws)] *)
Definition join (sep : string) (ws : list string) : string := String.concat sep ws.

(** [k in s] *)
Fixpoint contains (k s : string) : bool :=
  String.prefix k s ||
  match s with
  | EmptyString => false
  | String _ s' => contains k s'
  end.

(** [s.endswith(suf)] *)
Definition endswith (suf s : string) : bool :=
  (String.length suf <=? String.length s)%nat &&
  (substring (String.length s - String.length suf) (String.length suf) s =? suf).

(** [str(n)] for a non-negative integer *)
Definition of_nat (n : nat) : string := NilZero.string_of_uint (Nat.to_uint n).

(** [s.isascii()]: every character is below 128 *)
Definition isascii (s : string) : bool :=
  forallb (fun c => (nat_of_ascii c <? 128)%nat) (list_ascii_of_string s).

(** a field of [strftime] that is zero-padded to two digits *)
Definition pad2 (n : nat) : string :=
  if (n <? 10)%nat then "0" ++ of_nat n else of_nat n.

End PyStr.

(* ===================================================================== *)
(** ** The explanation rules ([_generate_explanation])                     *)
(* ===================================================================== *)

Definition spam_keywords : list string :=
  ["buy"; "win"; "free"; "urgent"; "click"; "subscribe"; "viagra"; "lottery"].

Definition ham_keywords : list string :=
  ["meeting"; "hello"; "thanks"; "schedule"; "project"].

Record Explanation := {
  keywords_found : list string;
  reason : string
}.

(** The body of the two [for keyword in ...] loops: [found_keywords.append]
    on a hit. *)
Fixpoint scan_keywords (keywords : list string) (text_lower : string)
    (found_keywords : list string) : list string :=
  match keywords with
  | [] => found_keywords
  | keyword :: rest =>
      if PyStr.contains keyword text_lower
      then scan_keywords rest text_lower (found_keywords ++ [keyword])
      else scan_keywords rest text_lower found_keywords
  end.

Definition _generate_explanation (text : string) (prediction : Z) : Explanation :=
  let found_keywords := [] in
  let text_lower := PyStr.lower text in
  let found_keywords :=
    if (prediction =? 1)%Z
    then scan_keywords spam_keywords text_lower found_keywords
    else scan_keywords ham_keywords text_lower found_keywords in
  {| keywords_found := found_keywords;
     reason := "Detected " ++ PyStr.of_nat (List.length found_keywords)
               ++ " relevant keywords" |}.

(** ** Text normalisation ([_preprocess_text]) *)

Definition _preprocess_text (text : string) : string :=
  let text := PyStr.lower text in
  let text := PyStr.join " " (PyStr.split text) in
  text.

(* ===================================================================== *)
(** ** Exceptions and results

    The exception classes that can leave a method of the service. The last
    two are the error names of the specification; they are here so that
    statements about them can be written, and no definition below raises
    them. *)
(* ===================================================================== *)

Inductive exn : Type :=
| ValueError (msg : string)   (* [raise ValueError("Model not loaded")] *)
| KeyError (key : string)     (* [model_data['vectorizer']] on a dict without the key *)
| IndexError                  (* [prediction_proba[prediction]] out of range *)
| OSError                     (* [open(model_path, 'wb')] *)
| PicklingError               (* [pickle.dump] *)
| UnpicklingError             (* [pickle.load] on bytes that are no pickle of a dict *)
| SklearnError                (* raised inside scikit-learn ([ValueError]: empty
                                 vocabulary, a target with fewer than two classes, ...) *)
| ModelNotFoundError
| InsufficientDataError.

Inductive result (A : Type) : Type :=
| Ok (a : A)
| Raise (e : exn).
Arguments Ok {A} a.
Arguments Raise {A} e.

(** [seq[i]] for a Python sequence and an integer index: negative indices
    count from the end, anything else out of range raises [IndexError]. *)
Definition py_index {A : Type} (l : list A) (i : Z) : result A :=
  let n := Z.of_nat (List.length l) in
  let j := if (i <? 0)%Z then (n + i)%Z else i in
  if ((0 <=? j) && (j <? n))%Z then
    match nth_error l (Z.to_nat j) with
    | Some a => Ok a
    | None => Raise IndexError
    end
  else Raise IndexError.

(* ===================================================================== *)
(** ** scikit-learn, as the service uses it

    [TfidfVectorizer(max_features=5000, stop_words='english')] and
    [LogisticRegression(random_state=42)] are fitted objects here; the
    constructor arguments are fixed in the source and are part of the fitting
    functions. Probabilities and scores are rationals. [None] stands for an
    exception raised inside the library. *)
(* ===================================================================== *)

Record Metrics := {
  accuracy : Q;
  precision : Q;
  recall : Q;
  f1 : Q
}.

Class Sklearn : Type := {
  Vectorizer : Type;
  Classifier : Type;
  Features : Type;          (* one row of the document-term matrix *)
  (* [vectorizer.fit_transform(texts)] *)
  fit_transform : list string -> option (Vectorizer * list Features);
  (* [vectorizer.transform([text])], its single row *)
  transform : Vectorizer -> string -> Features;
  (* [model.fit(X, labels)] *)
  fit : list Features -> list Z -> option Classifier;
  (* [model.predict_proba(X)[0]] *)
  predict_proba : Classifier -> Features -> list Q;
  (* [model.predict(X)[0]] *)
  sk_predict : Classifier -> Features -> Z;
  (* [accuracy_score], [precision_score], [recall_score], [f1_score] of
     [(labels, predictions)], the last three with [zero_division=0] *)
  scores : list Z -> list Z -> option Metrics
}.


(* ===================================================================== *)
(** ** The model directory, the clock and the logger                       *)
(* ===================================================================== *)

Definition MODEL_PATH : string := "ml/models".

(** [datetime.datetime.now()] *)
Record datetime := {
  year : nat; month : nat; day : nat;
  hour : nat; minute : nat; second : nat
}.

(** [now.strftime("%Y%m%d_%H%M%S")] *)
Definition strftime (now : datetime) : string :=
  PyStr.of_nat (year now) ++ PyStr.pad2 (month now) ++ PyStr.pad2 (day now)
  ++ "_" ++ PyStr.pad2 (hour now) ++ PyStr.pad2 (minute now) ++ PyStr.pad2 (second now).

Inductive level := INFO | WARNING | ERROR.

(** One constructor per logging call of the source, with the values its
    f-string interpolates. *)
Inductive log_record : Type :=
| LoadedModel (name : string)
| NoTrainedModel
| FailedToLoadModel (e : exn)
| CreatedDefaultModel
| PredictionFailed (e : exn)
| TrainedAndSaved (name : string)
| TrainingFailed (e : exn)
| FailedToLoadModelInfo (model_file : string) (e : exn)
| FailedToListModels (e : exn).

Definition levelname (r : log_record) : level :=
  match r with
  | LoadedModel _ | CreatedDefaultModel | TrainedAndSaved _ => INFO
  | NoTrainedModel | FailedToLoadModelInfo _ _ => WARNING
  | FailedToLoadModel _ | PredictionFailed _ | TrainingFailed _
  | FailedToListModels _ => ERROR
  end.

(** What the operating system answers to [open(model_path, 'wb')] followed
    by [pickle.dump]. *)
Inductive write_outcome := WriteOk | OpenFails | DumpFails.

(** The environment of one [train_model] call: the wall clock read by
    [datetime.now()], the modification time the file system stamps on the
    written file, and the outcome of the write. *)
Record Env := {
  now : datetime;
  mtime_now : Z;
  write : write_outcome
}.

(** Predicted labels as the response carries them. *)
Definition label_of (prediction : Z) : string :=
  if (prediction =? 1)%Z then "spam" else "ham".

Section Service.

Context {SK : Sklearn}.

(** The dict that [train_model] pickles. A key that is absent from a stored
    dict is [None]; a key that is present holds an object of the kind
    [train_model] stores under it. *)
Record model_data := {
  md_vectorizer : option Vectorizer;
  md_model : option Classifier;
  md_metrics : option Metrics;
  md_training_samples : option nat
}.

(** A directory entry: its file name, its [stat().st_mtime], and what
    [pickle.load] makes of its bytes ([None]: it raises). *)
Record file := {
  f_name : string;
  st_mtime : Z;
  f_pickle : option model_data
}.

(** [self.models_dir.glob("*.pkl")], in the order the directory yields. *)
Definition glob_pkl (dir : list file) : list file :=
  filter (fun f => PyStr.endswith ".pkl" (f_name f)) dir.

(** [model_file.stem] of a name matched by ["*.pkl"]: the name without
    its suffix; [".pkl"] alone has no suffix. *)
Definition stem (name : string) : string :=
  if (String.length name =? 4)%nat then name
  else substring 0 (String.length name - 4) name.

(** [str(self.models_dir / name)] *)
Definition path_str (name : string) : string := MODEL_PATH ++ "/" ++ name.

(** [max(x :: xs, key=key)]: the first element whose key is greatest. *)
Definition py_max {A : Type} (key : A -> Z) (x : A) (xs : list A) : A :=
  fold_left (fun best y => if (key best <? key y)%Z then y else best) xs x.

(** Writing a file: an existing entry of that name is replaced, a new name
    is added to the directory. Where the new entry stands in the order that
    [glob] yields is the file system's choice; the list puts it last, and no
    statement below is about its place. *)
Fixpoint fs_write (name : string) (mtime : Z) (p : option model_data)
    (dir : list file) : list file :=
  match dir with
  | [] => [{| f_name := name; st_mtime := mtime; f_pickle := p |}]
  | f :: dir' =>
      if (f_name f =? name)%string
      then {| f_name := name; st_mtime := mtime; f_pickle := p |} :: dir'
      else f :: fs_write name mtime p dir'
  end.

(** [sorted(models, key=key, reverse=True)]: stable, so entries with equal
    keys keep their order. *)
Fixpoint insert_desc {A : Type} (key : A -> Z) (x : A) (l : list A) : list A :=
  match l with
  | [] => [x]
  | y :: l' =>
      if (key y <=? key x)%Z then x :: y :: l' else y :: insert_desc key x l'
  end.

Definition sorted_desc {A : Type} (key : A -> Z) (l : list A) : list A :=
  fold_right (insert_desc key) [] l.

(** *** The state: the [MLService] object, the directory and the log *)

Record World := {
  vectorizer : option Vectorizer;     (* [self.vectorizer] *)
  model : option Classifier;          (* [self.model] *)
  models_dir : list file;             (* the files under [self.models_dir] *)
  log : list log_record               (* what [logger] has received, oldest first *)
}.

Definition M (A : Type) : Type := World -> result A * World.

Definition ret {A} (a : A) : M A := fun w => (Ok a, w).

Definition bind {A B} (m : M A) (k : A -> M B) : M B :=
  fun w =>
    match m w with
    | (Ok a, w') => k a w'
    | (Raise e, w') => (Raise e, w')
    end.

Definition raise {A} (e : exn) : M A := fun w => (Raise e, w).

(** [try: body  except Exception as e: handler(e)]; what [body] did to the
    state before raising stays done. *)
Definition try_except {A} (body : M A) (handler : exn -> M A) : M A :=
  fun w =>
    match body w with
    | (Ok a, w') => (Ok a, w')
    | (Raise e, w') => handler e w'
    end.

Definition get : M World := fun w => (Ok w, w).

Definition logger (r : log_record) : M unit :=
  fun w => (Ok tt, {| vectorizer := vectorizer w; model := model w;
                      models_dir := models_dir w; log := log w ++ [r] |}).

Definition set_vectorizer (v : Vectorizer) : M unit :=
  fun w => (Ok tt, {| vectorizer := Some v; model := model w;
                      models_dir := models_dir w; log := log w |}).

Definition set_model (m : Classifier) : M unit :=
  fun w => (Ok tt, {| vectorizer := vectorizer w; model := Some m;
                      models_dir := models_dir w; log := log w |}).

Definition set_models_dir (dir : list file) : M unit :=
  fun w => (Ok tt, {| vectorizer := vectorizer w; model := model w;
                      models_dir := dir; log := log w |}).

(** a call into scikit-learn *)
Definition sk {A} (r : option A) : M A :=
  match r with
  | Some a => ret a
  | None => raise SklearnError
  end.

(** lifting a pure computation that may raise *)
Definition lift {A} (r : result A) : M A := fun w => (r, w).

(** What a call returns or raises, and the state it leaves. *)
Definition outcome {A} (m : M A) (w : World) : result A := fst (m w).
Definition after {A} (m : M A) (w : World) : World := snd (m w).

End Service.

Declare Scope py_scope.
Delimit Scope py_scope with py.
Notation "x <- m ;; k" := (bind m (fun x => k))
  (at level 100, m at next level, right associativity) : py_scope.
Notation "' p <- m ;; k" := (bind m (fun x => match x with p => k end))
  (at level 100, p pattern, m at next level, right associativity) : py_scope.
Notation "m ;; k" := (bind m (fun _ => k))
  (at level 100, right associativity) : py_scope.

(* ===================================================================== *)
(** ** The methods of [MLService]                                          *)
(* ===================================================================== *)

(** The response dict of [predict]. *)
Record PredictionResult := {
  pr_prediction : string;        (* ["prediction"] *)
  pr_confidence : Q;             (* ["confidence"] *)
  pr_explanation : Explanation;  (* ["explanation"] *)
  pr_model_version : string      (* ["model_version"] *)
}.

(** An element of [training_data]: a dict with keys ['text'] and ['label']. *)
Record TrainingItem := {
  text : string;
  label : Z
}.

(** The dict [train_model] returns. *)
Record TrainingReport := {
  tr_model_name : string;        (* ["model_name"] *)
  tr_metrics : Metrics;          (* ["metrics"] *)
  tr_training_samples : nat      (* ["training_samples"] *)
}.

(** An element of the list [list_models] returns; [mi_metrics = None] is
    the default [{}] of [model_data.get('metrics', {})]. *)
Record ModelInfo := {
  mi_name : string;
  mi_path : string;
  mi_metrics : option Metrics;
  mi_training_samples : nat;
  mi_created : Z
}.

Definition dummy_texts : list string :=
  [ "This is a legitimate message";
    "Buy now cheap viagra";
    "Meeting at 3pm tomorrow";
    "Win lottery now!!!";
    "Hello friend";
    "URGENT: Your account is suspended" ].

Definition dummy_labels : list Z := [0; 1; 0; 1; 0; 1]%Z.  (* 0=ham, 1=spam *)

(** Truth value of an optional string argument: [None] and the empty string are false. *)
Definition truthy (s : option string) : bool :=
  match s with
  | Some (String _ _) => true
  | _ => false
  end.

(** A [model_name] that names a file of the model directory itself: no
    path separator and no NUL character in it. With another name
    [self.models_dir / f"{model_name}.pkl"] is a path outside the directory
    (or none at all), and what [train_model] below does to [models_dir] and
    reports as file name is not what the code does; statements about the
    written file are made for plain names. An omitted name is plain. *)
Definition plain_file_name (model_name : option string) : bool :=
  match model_name with
  | Some n =>
      forallb (fun c => negb (Ascii.eqb c "/") && negb (Ascii.eqb c "000"))
              (list_ascii_of_string n)
  | None => true
  end.

Section Methods.

Context {SK : Sklearn}.
Local Open Scope py_scope.

(** [pickle.load(f)] *)
Definition pickle_load (f : file) : M model_data :=
  match f_pickle f with
  | Some d => ret d
  | None => raise UnpicklingError
  end.

(** [d[key]] *)
Definition getitem {A} (key : string) (o : option A) : M A :=
  match o with
  | Some a => ret a
  | None => raise (KeyError key)
  end.

(** [with open(model_path, 'wb') as f: pickle.dump(model_data, f)]. A dump
    that fails leaves the file it had opened, with bytes that do not load. *)
Definition pickle_dump (model_path : string) (d : model_data) (env : Env) : M unit :=
  w <- get;;
  match write env with
  | OpenFails => raise OSError
  | DumpFails =>
      set_models_dir (fs_write model_path (mtime_now env) None (models_dir w));;
      raise PicklingError
  | WriteOk =>
      set_models_dir (fs_write model_path (mtime_now env) (Some d) (models_dir w))
  end.

(** [for x in xs: body], threading the value the body rebinds. *)
Fixpoint for_each {A S : Type} (xs : list A) (body : S -> A -> M S) (s : S) : M S :=
  match xs with
  | [] => ret s
  | x :: xs' => s' <- body s x;; for_each xs' body s'
  end.

(** The two attributes hold fitted objects, so they are assigned once the
    fits have returned; when a fit raises, the constructor raises and no
    service object exists. *)
Definition _create_default_model : M unit :=
  ' (v, X) <- sk (fit_transform dummy_texts);;
  m <- sk (fit X dummy_labels);;
  set_vectorizer v;;
  set_model m;;
  logger CreatedDefaultModel.

Definition _load_latest_model : M unit :=
  try_except
    (w <- get;;
     let model_files := glob_pkl (models_dir w) in
     match model_files with
     | f :: fs =>
         let latest_model := py_max st_mtime f fs in
         model_data <- pickle_load latest_model;;
         v <- getitem "vectorizer" (md_vectorizer model_data);;
         set_vectorizer v;;
         m <- getitem "model" (md_model model_data);;
         set_model m;;
         logger (LoadedModel (f_name latest_model))
     | [] =>
         logger NoTrainedModel;;
         _create_default_model
     end)
    (fun e =>
       logger (FailedToLoadModel e);;
       _create_default_model).

(** [MLService()]: both attributes start as [None]; the model directory
    exists, so [mkdir(exist_ok=True)] does nothing. *)
Definition __init__ : M unit :=
  fun w =>
    _load_latest_model
      {| vectorizer := None; model := None;
         models_dir := models_dir w; log := log w |}.

(** [pass] *)
Definition _log_prediction (user_id : option string) (text : string)
    (prediction : Z) (confidence : Q) (explanation : Explanation) : M unit :=
  ret tt.

(** [model_version = None] is a call that omits the argument; [db] tells
    whether a session was passed. *)
Definition predict (text : string) (model_version : option string)
    (user_id : option string) (db : bool) : M PredictionResult :=
  let model_version :=
    match model_version with Some v => v | None => "latest" end in
  try_except
    (w <- get;;
     ' (v, m) <- match vectorizer w, model w with
                 | Some v, Some m => ret (v, m)
                 | _, _ => raise (ValueError "Model not loaded")
                 end;;
     let processed_text := _preprocess_text text in
     let X := transform v processed_text in
     let prediction_proba := predict_proba m X in
     let prediction := sk_predict m X in
     confidence <- lift (py_index prediction_proba prediction);;
     let explanation := _generate_explanation text prediction in
     (if db && truthy user_id
      then _log_prediction user_id text prediction confidence explanation
      else ret tt);;
     ret {| pr_prediction := label_of prediction;
            pr_confidence := confidence;
            pr_explanation := explanation;
            pr_model_version := model_version |})
    (fun e =>
       logger (PredictionFailed e);;
       raise e).

(** The file name of the new artifact: [model_name] with [".pkl"] when a
    non-empty name is given, otherwise ["model_"], the time of the call to
    the second, and [".pkl"]. For a plain model name ([plain_file_name])
    this names a file of the model directory, and it is [model_path.name],
    which the report carries. *)
Definition model_path_of (model_name : option string) (now : datetime) : string :=
  if truthy model_name
  then match model_name with Some n => n | None => EmptyString end ++ ".pkl"
  else "model_" ++ strftime now ++ ".pkl".

Definition train_model (training_data : list TrainingItem)
    (model_name : option string) (env : Env) : M TrainingReport :=
  try_except
    (let texts := map text training_data in
     let labels := map label training_data in
     ' (vectorizer, X) <- sk (fit_transform texts);;
     model <- sk (fit X labels);;
     let predictions := map (sk_predict model) X in
     metrics <- sk (scores labels predictions);;
     let model_data :=
       {| md_vectorizer := Some vectorizer;
          md_model := Some model;
          md_metrics := Some metrics;
          md_training_samples := Some (List.length texts) |} in
     let model_path := model_path_of model_name (now env) in
     pickle_dump model_path model_data env;;
     set_vectorizer vectorizer;;
     set_model model;;
     logger (TrainedAndSaved model_path);;
     ret {| tr_model_name := model_path;
            tr_metrics := metrics;
            tr_training_samples := List.length texts |})
    (fun e =>
       logger (TrainingFailed e);;
       raise e).

Definition model_info (model_file : file) (model_data : model_data) : ModelInfo :=
  {| mi_name := stem (f_name model_file);
     mi_path := path_str (f_name model_file);
     mi_metrics := md_metrics model_data;
     mi_training_samples :=
       match md_training_samples model_data with Some n => n | None => O end;
     mi_created := st_mtime model_file |}.

Definition list_models : M (list ModelInfo) :=
  try_except
    (w <- get;;
     models <- for_each (glob_pkl (models_dir w))
       (fun models model_file =>
          try_except
            (model_data <- pickle_load model_file;;
             ret (models ++ [model_info model_file model_data]))
            (fun e =>
               logger (FailedToLoadModelInfo (path_str (f_name model_file)) e);;
               ret models))
       [];;
     ret (sorted_desc mi_created models))
    (fun e =>
       logger (FailedToListModels e);;
       ret []).

End Methods.

(* ===================================================================== *)
(** ** A stand-in for scikit-learn that evaluates

    The vectorizer keeps the corpus it was fitted on and hands documents on
    as they are, so what the service passes to the library can be read off.
    Like the library, fitting refuses an empty corpus and a target that
    lacks one of the two classes. The classifier calls a document spam when
    ["win"] occurs in it. *)
(* ===================================================================== *)

Module Toy.

Definition count_where (p : Z -> Z -> bool) (labels predictions : list Z) : nat :=
  List.length (filter (fun lp => p (fst lp) (snd lp)) (combine labels predictions)).

Definition ratio (a b : nat) : Q :=
  match b with
  | O => 0
  | S _ => Z.of_nat a # Pos.of_nat b
  end.

Definition toy_scores (labels predictions : list Z) : option Metrics :=
  let tp := count_where (fun l p => (l =? 1)%Z && (p =? 1)%Z) labels predictions in
  let fp := count_where (fun l p => negb (l =? 1)%Z && (p =? 1)%Z) labels predictions in
  let fn := count_where (fun l p => (l =? 1)%Z && negb (p =? 1)%Z) labels predictions in
  let hit := count_where Z.eqb labels predictions in
  Some {| accuracy := ratio hit (List.length labels);
          precision := ratio tp (tp + fp);
          recall := ratio tp (tp + fn);
          f1 := ratio (2 * tp) (2 * tp + fp + fn) |}.

Definition toy_proba (doc : string) : list Q :=
  if PyStr.contains "win" doc then [1 # 5; 4 # 5] else [3 # 4; 1 # 4].

Definition toy_predict (doc : string) : Z :=
  if PyStr.contains "win" doc then 1%Z else 0%Z.

#[export] Instance sklearn : Sklearn := {|
  Vectorizer := list string;
  Classifier := list Z;
  Features := string;
  fit_transform := fun texts =>
    match texts with
    | [] => None
    | _ => Some (texts, texts)
    end;
  transform := fun _ doc => doc;
  fit := fun _ labels =>
    if existsb (Z.eqb 0) labels && existsb (Z.eqb 1) labels
    then Some labels else None;
  predict_proba := fun _ doc => toy_proba doc;
  sk_predict := fun _ doc => toy_predict doc;
  scores := toy_scores
|}.

(** A machine with an empty model directory and no service object yet. *)
Definition fresh : World :=
  {| vectorizer := None; model := None; models_dir := []; log := [] |}.

Definition at_noon (sec : nat) (mtime : Z) (o : write_outcome) : Env :=
  {| now := {| year := 2024; month := 3; day := 9;
               hour := 12; minute := 0; second := sec |};
     mtime_now := mtime;
     write := o |}.

Definition two_examples : list TrainingItem :=
  [ {| text := "Win lottery now!!!"; label := 1 |};
    {| text := "Meeting at 3pm"; label := 0 |} ].

Definition other_examples : list TrainingItem :=
  [ {| text := "Buy  NOW"; label := 1 |};
    {| text := "Hello friend"; label := 0 |};
    {| text := "see you"; label := 0 |} ].

Definition only_spam : list TrainingItem :=
  [ {| text := "Win lottery now!!!"; label := 1 |};
    {| text := "Buy now"; label := 1 |} ].

(** A ready service on the empty directory. *)
Definition started : World := after __init__ fresh.

(** A stored artifact whose featurizer was fitted on [corpus]. *)
Definition artifact (corpus : list string) : model_data :=
  {| md_vectorizer := Some corpus; md_model := Some [0; 1]%Z;
     md_metrics := None; md_training_samples := Some (List.length corpus) |}.

(** Two directories with the same two files, byte for byte; only the
    modification times differ. *)
Definition dir_a_touched_last : list file :=
  [ {| f_name := "a.pkl"; st_mtime := 20; f_pickle := Some (artifact ["first"]) |};
    {| f_name := "b.pkl"; st_mtime := 10; f_pickle := Some (artifact ["second"]) |} ].

Definition dir_b_touched_last : list file :=
  [ {| f_name := "a.pkl"; st_mtime := 10; f_pickle := Some (artifact ["first"]) |};
    {| f_name := "b.pkl"; st_mtime := 20; f_pickle := Some (artifact ["second"]) |} ].

(** A directory with a file that does not load and a file that is no
    model. *)
Definition dir_with_corrupt : list file :=
  [ {| f_name := "old.pkl"; st_mtime := 5; f_pickle := Some (artifact ["first"]) |};
    {| f_name := "broken.pkl"; st_mtime := 30; f_pickle := None |};
    {| f_name := "notes.txt"; st_mtime := 40; f_pickle := None |};
    {| f_name := "new.pkl"; st_mtime := 20; f_pickle := Some (artifact ["second"]) |} ].

Definition on_dir (dir : list file) : World :=
  {| vectorizer := None; model := None; models_dir := dir; log := [] |}.

Definition probe : string := "URGENT: Win cash now".

(** What the ready service answers to [probe]. *)
Definition probe_response (model_version : string) : PredictionResult :=
  {| pr_prediction := "spam";
     pr_confidence := 4 # 5;
     pr_explanation := {| keywords_found := ["win"; "urgent"];
                          reason := "Detected 2 relevant keywords" |};
     pr_model_version := model_version |}.

End Toy.

(* ===================================================================== *)
(** ** A stand-in that keeps the classes

    Like [LogisticRegression], the classifier remembers the sorted distinct
    training labels ([classes_]), gives one probability per class in that
    order, and predicts the label of a class of greatest probability. The
    class it favours (with probability 3/5, the rest shared by the others) is
    the last one when ["win"] occurs in the document and the first one
    otherwise. *)
(* ===================================================================== *)

Module ByClass.

Fixpoint insert_class (c : Z) (cs : list Z) : list Z :=
  match cs with
  | [] => [c]
  | d :: cs' =>
      if (c <? d)%Z then c :: d :: cs'
      else if (c =? d)%Z then d :: cs'
      else d :: insert_class c cs'
  end.

(** [classes_]: the distinct labels in increasing order *)
Definition classes_of (labels : list Z) : list Z := fold_right insert_class [] labels.

Definition favoured (n : nat) (doc : string) : nat :=
  if PyStr.contains "win" doc then (n - 1)%nat else 0%nat.

Definition proba_row (classes : list Z) (doc : string) : list Q :=
  let n := List.length classes in
  map (fun k => if (k =? favoured n doc)%nat then 3 # 5
                else (2 # 5) / inject_Z (Z.of_nat (n - 1)))
      (seq 0 n).

Definition predict_class (classes : list Z) (doc : string) : Z :=
  nth (favoured (List.length classes) doc) classes 0%Z.

#[local] Instance sklearn : Sklearn := {|
  Vectorizer := list string;
  Classifier := list Z;
  Features := string;
  fit_transform := fun texts =>
    match texts with
    | [] => None
    | _ => Some (texts, texts)
    end;
  transform := fun _ doc => doc;
  fit := fun _ labels =>
    if (2 <=? List.length (classes_of labels))%nat
    then Some (classes_of labels) else None;
  predict_proba := proba_row;
  sk_predict := predict_class;
  scores := Toy.toy_scores
|}.

(** A ready service on the empty directory: its classifier was fitted on
    the labels 0 and 1 of the default examples. *)
Definition started : World :=
  after __init__ {| vectorizer := None; model := None; models_dir := []; log := [] |}.




End ByClass.

(* ===================================================================== *)
(** ** The prediction routes ([backend/app/routes/api.py])

    The bodies of the three handlers, as they run once FastAPI has resolved
    [current_user] and [db]. Each handler constructs its own [MLService].
    The module has a logger of its own; what a handler logs is returned
    beside its reply. *)
(* ===================================================================== *)

(** [PredictionRequest]; pydantic fills in ["latest"] for a request
    without [model_version]. *)
Record PredictionRequest := {
  req_text : string;
  req_model_version : string
}.

Record PredictionResponse := {
  resp_prediction : string;
  resp_confidence : Q;
  resp_explanation : option Explanation;   (* [explanation: dict = None] *)
  resp_model_version : string
}.

(** A handler returns a value or raises [HTTPException]. *)
Inductive reply (A : Type) : Type :=
| Returns (a : A)
| HTTPException (status_code : nat) (detail : string).
Arguments Returns {A} a.
Arguments HTTPException {A} status_code detail.

(** The three [logger.error] calls of the module. *)
Inductive api_log_record : Type :=
| ApiPredictionFailed (e : exn)
| ApiFailedToListModels (e : exn)
| ApiFailedToGetHistory (e : exn).

Section Routes.

Context {SK : Sklearn}.
Local Open Scope py_scope.

(** [MLService.get_prediction_history]: the query is not implemented. *)
Definition get_prediction_history (user_id : string) (limit offset : Z)
    (db : bool) : M (list PredictionResult) :=
  ret [].

Definition Route (A : Type) : Type := World -> (reply A * list api_log_record) * World.

(** [POST /]: [current_user_id] is [current_user.id], a UUID. *)
Definition api_predict (request : PredictionRequest) (current_user_id : string)
    : Route PredictionResponse :=
  fun w =>
    match (__init__;;
           predict (req_text request) (Some (req_model_version request))
                   (Some current_user_id) true) w with
    | (Ok result, w') =>
        ((Returns {| resp_prediction := pr_prediction result;
                     resp_confidence := pr_confidence result;
                     resp_explanation := Some (pr_explanation result);
                     resp_model_version := pr_model_version result |},
          []), w')
    | (Raise e, w') =>
        ((HTTPException 500 "Prediction failed", [ApiPredictionFailed e]), w')
    end.

(** [GET /models], the value under ["models"]. *)
Definition api_list_models : Route (list ModelInfo) :=
  fun w =>
    match (__init__;; list_models) w with
    | (Ok models, w') => ((Returns models, []), w')
    | (Raise e, w') =>
        ((HTTPException 500 "Failed to retrieve models", [ApiFailedToListModels e]), w')
    end.

(** [GET /history], the value under ["history"]. *)
Definition api_prediction_history (limit offset : Z) (current_user_id : string)
    : Route (list PredictionResult) :=
  fun w =>
    match (__init__;; get_prediction_history current_user_id limit offset true) w with
    | (Ok history, w') => ((Returns history, []), w')
    | (Raise e, w') =>
        ((HTTPException 500 "Failed to retrieve prediction history",
          [ApiFailedToGetHistory e]), w')
    end.

End Routes.

(* ===================================================================== *)
(** * Properties                                                            *)
(* ===================================================================== *)

(** ** Strings *)

Lemma prefix_iff (k s : string) :
  String.prefix k s = true <-> exists post, s = (k ++ post)%string.
Proof.
  revert s; induction k as [|c k IH]; intros s; simpl.
  - destruct s; simpl; split; intros _; eauto.
  - destruct s as [|d s]; simpl.
    + split; [discriminate | intros [post H]; discriminate].
    + destruct (Ascii.ascii_dec c d) as [->|Hne].
      * rewrite IH. split; intros [post H]; exists post.
        -- now subst.
        -- now inversion H.
      * split; [discriminate | intros [post H]; inversion H; congruence].
Qed.

Lemma contains_iff (k s : string) :
  PyStr.contains k s = true <-> exists pre post, s = (pre ++ k ++ post)%string.
Proof.
  induction s as [|c s IH]; cbn [PyStr.contains].
  - rewrite orb_false_r, prefix_iff. split.
    + intros [post H]. exists EmptyString, post. exact H.
    + intros [pre [post H]]. destruct pre; simpl in H; [eauto | discriminate].
  - rewrite orb_true_iff, prefix_iff, IH. split.
    + intros [[post H] | [pre [post H]]].
      * exists EmptyString, post. exact H.
      * exists (String c pre), post. simpl. now rewrite H.
    + intros [pre [post H]]. destruct pre as [|d pre]; simpl in H.
      * left. eauto.
      * right. inversion H. eauto.
Qed.

(** ** The explanation rules *)

Lemma scan_keywords_filter (keywords : list string) (t : string) (acc : list string) :
  scan_keywords keywords t acc = acc ++ filter (fun k => PyStr.contains k t) keywords.
Proof.
  revert acc; induction keywords as [|k ks IH]; intros acc; simpl.
  - now rewrite app_nil_r.
  - destruct (PyStr.contains k t); rewrite IH; [now rewrite <- app_assoc | reflexivity].
Qed.





(** ** Python's [max] and [sorted] *)

Section Ordering.

Context {A : Type} (key : A -> Z).

Lemma insert_desc_perm (x : A) (l : list A) :
  Permutation (insert_desc key x l) (x :: l).
Proof.
  induction l as [|y l IH]; simpl.
  - apply Permutation_refl.
  - destruct (key y <=? key x)%Z.
    + apply Permutation_refl.
    + eapply perm_trans; [apply perm_skip, IH | apply perm_swap].
Qed.

Lemma sorted_desc_perm (l : list A) : Permutation (sorted_desc key l) l.
Proof.
  induction l as [|x l IH]; simpl.
  - constructor.
  - eapply perm_trans; [apply insert_desc_perm | now apply perm_skip].
Qed.

Lemma insert_desc_sorted (x : A) (l : list A) :
  StronglySorted (fun a b => (key b <= key a)%Z) l ->
  StronglySorted (fun a b => (key b <= key a)%Z) (insert_desc key x l).
Proof.
  induction l as [|y l IH]; simpl; intros Hs.
  - repeat constructor.
  - apply StronglySorted_inv in Hs. destruct Hs as [Hl Hy].
    destruct (key y <=? key x)%Z eqn:E.
    + apply Z.leb_le in E. constructor.
      * now constructor.
      * constructor; [exact E|].
        rewrite Forall_forall in *. intros z Hz. specialize (Hy z Hz). lia.
    + apply Z.leb_gt in E. constructor; [now apply IH|].
      rewrite Forall_forall in *. intros z Hz.
      apply (Permutation_in _ (insert_desc_perm x l)) in Hz.
      destruct Hz as [<-|Hz]; [lia | now apply Hy].
Qed.

Lemma sorted_desc_sorted (l : list A) :
  StronglySorted (fun a b => (key b <= key a)%Z) (sorted_desc key l).
Proof.
  induction l as [|x l IH]; simpl; [constructor | now apply insert_desc_sorted].
Qed.

(** [fold_left] of the comparison step of [max]: the result is a member,
    no key exceeds its key, and every element in front of it has a strictly
    smaller key. *)
Lemma py_max_first (x : A) (xs : list A) :
  exists pre post,
    x :: xs = pre ++ py_max key x xs :: post /\
    (forall y, In y pre -> (key y < key (py_max key x xs))%Z) /\
    (forall y, In y post -> (key y <= key (py_max key x xs))%Z).
Proof.
  unfold py_max.
  enough (G : forall xs done best rest,
             (forall y, In y done -> (key y < key best)%Z) ->
             (forall y, In y rest -> (key y <= key best)%Z) ->
             exists pre post,
               done ++ best :: rest ++ xs =
                 pre ++ fold_left (fun b y => if (key b <? key y)%Z then y else b) xs best :: post /\
               (forall y, In y pre ->
                  (key y < key (fold_left (fun b y => if (key b <? key y)%Z then y else b) xs best))%Z) /\
               (forall y, In y post ->
                  (key y <= key (fold_left (fun b y => if (key b <? key y)%Z then y else b) xs best))%Z)).
  { destruct (G xs [] x []) as (pre & post & E & H1 & H2); simpl; try tauto.
    exists pre, post. auto. }
  clear x xs. induction xs as [|z xs IH]; intros done best rest Hd Hr.
  - exists done, rest. simpl. rewrite app_nil_r. auto.
  - simpl. destruct (key best <? key z)%Z eqn:E.
    + apply Z.ltb_lt in E.
      destruct (IH (done ++ best :: rest) z []) as (pre & post & Eq & H1 & H2).
      * intros y Hy. apply in_app_or in Hy. destruct Hy as [Hy|[<-|Hy]].
        -- specialize (Hd y Hy). lia.
        -- exact E.
        -- specialize (Hr y Hy). lia.
      * simpl; tauto.
      * exists pre, post. split; [|auto].
        rewrite <- Eq. simpl. rewrite <- !app_assoc. reflexivity.
    + apply Z.ltb_ge in E.
      destruct (IH done best (rest ++ [z])) as (pre & post & Eq & H1 & H2).
      * exact Hd.
      * intros y Hy. apply in_app_or in Hy. destruct Hy as [Hy|[<-|[]]]; auto.
      * exists pre, post. split; [|auto].
        rewrite <- Eq. rewrite <- !app_assoc. reflexivity.
Qed.

Lemma py_max_greatest (x : A) (xs : list A) :
  In (py_max key x xs) (x :: xs) /\
  forall y, In y (x :: xs) -> (key y <= key (py_max key x xs))%Z.
Proof.
  destruct (py_max_first x xs) as (pre & post & E & H1 & H2).
  rewrite E. split.
  - apply in_or_app. right. now left.
  - intros y Hy. apply in_app_or in Hy. destruct Hy as [Hy|[<-|Hy]].
    + specialize (H1 y Hy). lia.
    + lia.
    + now apply H2.
Qed.

End Ordering.

(** ** The service, for every implementation of the scikit-learn interface *)

Section ServiceProperties.

Context {SK : Sklearn}.

(** Unfolding the monad. *)
Ltac run :=
  unfold sk, lift, getitem, pickle_load, _log_prediction in *;
  unfold bind, ret, raise, try_except, get, logger, set_vectorizer, set_model,
    set_models_dir in *;
  cbn [fst snd vectorizer model models_dir log] in *.

Lemma world_eta (w : World) :
  {| vectorizer := vectorizer w; model := model w;
     models_dir := models_dir w; log := log w |} = w.
Proof. now destruct w. Qed.

(** *** [list_models] *)

(** The loop of [list_models]: every file that loads appends its summary,
    every file that does not appends one warning to the log, and nothing
    else changes. *)
Lemma list_models_loop (files : list file) (models : list ModelInfo) (w : World) :
  for_each files
    (fun models model_file =>
       try_except
         (bind (pickle_load model_file) (fun model_data =>
            ret (models ++ [model_info model_file model_data])))
         (fun e =>
            bind (logger (FailedToLoadModelInfo (path_str (f_name model_file)) e))
                 (fun _ => ret models)))
    models w
  = (Ok (models ++
         flat_map (fun f => match f_pickle f with
                            | Some d => [model_info f d]
                            | None => []
                            end) files),
     {| vectorizer := vectorizer w; model := model w; models_dir := models_dir w;
        log := log w ++
               map (fun f => FailedToLoadModelInfo (path_str (f_name f)) UnpicklingError)
                   (filter (fun f => match f_pickle f with
                                     | Some _ => false
                                     | None => true
                                     end) files) |}).
Proof.
  match goal with |- for_each _ ?b _ _ = _ => set (body := b) end.
  assert (Hbody : forall models f w,
             body models f w =
             match f_pickle f with
             | Some d => (Ok (models ++ [model_info f d]), w)
             | None => (Ok models,
                        {| vectorizer := vectorizer w; model := model w;
                           models_dir := models_dir w;
                           log := log w ++ [FailedToLoadModelInfo (path_str (f_name f))
                                              UnpicklingError] |})
             end).
  { intros ms f w0. unfold body. run. now destruct (f_pickle f). }
  clearbody body.
  revert models w. induction files as [|f files IH]; intros models w.
  - simpl. unfold ret. now rewrite !app_nil_r, world_eta.
  - cbn [for_each]. unfold bind. rewrite Hbody.
    destruct (f_pickle f) as [d|] eqn:E; cbn [flat_map filter map]; rewrite E.
    + rewrite IH. now rewrite <- app_assoc.
    + rewrite IH. cbn [vectorizer model models_dir log app].
      now rewrite <- app_assoc.
Qed.

(** C9, as the code has it. [list_models] never raises. The list it
    returns is ordered by its [created] field, greatest first, and that
    field is the modification time [st_mtime] of the file, not a time
    recorded in the artifact. The list holds one summary for each [*.pkl]
    file whose bytes load and none for a file whose bytes do not; for each
    such file one warning is logged, and nothing else changes. *)
Theorem list_models_sorted_and_skips_corrupt (w : World) :
  exists l : list ModelInfo,
    list_models w =
      (Ok l,
       {| vectorizer := vectorizer w; model := model w; models_dir := models_dir w;
          log := log w ++
                 map (fun f => FailedToLoadModelInfo (path_str (f_name f)) UnpicklingError)
                     (filter (fun f => match f_pickle f with
                                       | Some _ => false
                                       | None => true
                                       end) (glob_pkl (models_dir w))) |}) /\
    StronglySorted (fun a b => (mi_created b <= mi_created a)%Z) l /\
    Forall (fun i => exists f d,
                In f (glob_pkl (models_dir w)) /\ f_pickle f = Some d /\
                i = model_info f d /\ mi_created i = st_mtime f) l /\
    Permutation l
      (flat_map (fun f => match f_pickle f with
                          | Some d => [model_info f d]
                          | None => []
                          end) (glob_pkl (models_dir w))) /\
    Forall (fun r => levelname r = WARNING)
      (map (fun f => FailedToLoadModelInfo (path_str (f_name f)) UnpicklingError)
           (filter (fun f => match f_pickle f with
                             | Some _ => false
                             | None => true
                             end) (glob_pkl (models_dir w)))).
Proof.
  eexists. split; [|split; [|split; [|split]]].
  - unfold list_models. unfold try_except at 1. unfold bind at 1, get at 1.
    unfold bind at 1. rewrite list_models_loop. unfold ret. reflexivity.
  - apply sorted_desc_sorted.
  - cbn [app]. apply Forall_forall. intros i Hi.
    apply (Permutation_in _ (sorted_desc_perm mi_created _)) in Hi.
    apply in_flat_map in Hi. destruct Hi as (f & Hf & Hi).
    destruct (f_pickle f) as [d|] eqn:Ep; [|contradiction].
    destruct Hi as [<-|[]]. exists f, d. auto.
  - cbn [app]. apply sorted_desc_perm.
  - apply Forall_forall. intros r Hr. apply in_map_iff in Hr.
    destruct Hr as (f & <- & _). reflexivity.
Qed.

(** *** The model directory *)

Lemma fs_write_In (name : string) (t : Z) (p : option model_data) (dir : list file) :
  In {| f_name := name; st_mtime := t; f_pickle := p |} (fs_write name t p dir).
Proof.
  induction dir as [|f dir IH]; simpl; [now left|].
  destruct (f_name f =? name)%string; simpl; auto.
Qed.




Lemma fs_write_In_inv (name : string) (t : Z) (p : option model_data)
    (dir : list file) (g : file) :
  In g (fs_write name t p dir) ->
  g = {| f_name := name; st_mtime := t; f_pickle := p |} \/ In g dir.
Proof.
  induction dir as [|f dir IH]; simpl.
  - intros [<-|[]]. now left.
  - destruct (f_name f =? name)%string; simpl.
    + intros [<-|H]; auto.
    + intros [<-|H]; auto. destruct (IH H); auto.
Qed.


(** *** [train_model], step by step *)

Lemma train_model_cases (training_data : list TrainingItem)
    (model_name : option string) (env : Env) (w : World) :
  let texts := map text training_data in
  let labels := map label training_data in
  let failed e dir :=
    (@Raise TrainingReport e,
     {| vectorizer := vectorizer w; model := model w; models_dir := dir;
        log := log w ++ [TrainingFailed e] |}) in
  train_model training_data model_name env w =
  match fit_transform texts with
  | None => failed SklearnError (models_dir w)
  | Some (v, X) =>
      match fit X labels with
      | None => failed SklearnError (models_dir w)
      | Some m =>
          match scores labels (map (sk_predict m) X) with
          | None => failed SklearnError (models_dir w)
          | Some s =>
              let d := {| md_vectorizer := Some v; md_model := Some m;
                          md_metrics := Some s;
                          md_training_samples := Some (List.length texts) |} in
              let path := model_path_of model_name (now env) in
              match write env with
              | OpenFails => failed OSError (models_dir w)
              | DumpFails =>
                  failed PicklingError
                         (fs_write path (mtime_now env) None (models_dir w))
              | WriteOk =>
                  (Ok {| tr_model_name := path; tr_metrics := s;
                         tr_training_samples := List.length texts |},
                   {| vectorizer := Some v; model := Some m;
                      models_dir := fs_write path (mtime_now env) (Some d) (models_dir w);
                      log := log w ++ [TrainedAndSaved path] |})
              end
          end
      end
  end.
Proof.
  intros texts labels failed. unfold train_model, pickle_dump. fold texts labels.
  unfold failed. run.
  destruct (fit_transform texts) as [[v X]|]; [|reflexivity].
  destruct (fit X labels) as [m|]; [|reflexivity].
  destruct (scores labels (map (sk_predict m) X)) as [s|]; [|reflexivity].
  destruct (write env); reflexivity.
Qed.

(** C5. In a [train_model] call the attributes [self.vectorizer] and
    [self.model] are assigned only after [pickle.dump] has returned: when
    opening or dumping fails the call raises, and whenever the call raises
    both attributes are what they were before it. When the call returns,
    the write succeeded and the two attributes are the featurizer and the
    classifier fitted on the texts and labels of the training data; for a
    plain model name the directory then holds the file named in the report,
    with an artifact made of these two objects. *)
Theorem train_model_swaps_after_save (training_data : list TrainingItem)
    (model_name : option string) (env : Env) (w : World) :
  let call := train_model training_data model_name env in
  let texts := map text training_data in
  let labels := map label training_data in
  (write env <> WriteOk -> exists e, outcome call w = Raise e) /\
  (forall e, outcome call w = Raise e ->
     vectorizer (after call w) = vectorizer w /\ model (after call w) = model w) /\
  (forall r, outcome call w = Ok r ->
     write env = WriteOk /\
     exists v X m,
       fit_transform texts = Some (v, X) /\ fit X labels = Some m /\
       vectorizer (after call w) = Some v /\ model (after call w) = Some m /\
       (plain_file_name model_name = true ->
        exists d,
          md_vectorizer d = Some v /\ md_model d = Some m /\
          In {| f_name := tr_model_name r; st_mtime := mtime_now env;
                f_pickle := Some d |} (models_dir (after call w)))).
Proof.
  intros call texts labels. unfold call, outcome, after.
  rewrite train_model_cases. fold texts labels.
  split; [|split].
  - intros Hw.
    destruct (fit_transform texts) as [[v X]|];
      [destruct (fit X labels) as [m|];
       [destruct (scores labels (map (sk_predict m) X)) as [s|];
        [destruct (write env)|]|]|]; try (eexists; reflexivity).
    now elim Hw.
  - intros e.
    destruct (fit_transform texts) as [[v X]|];
      [destruct (fit X labels) as [m|];
       [destruct (scores labels (map (sk_predict m) X)) as [s|];
        [destruct (write env)|]|]|]; cbn [fst snd vectorizer model];
      intros He; try discriminate He; split; reflexivity.
  - intros r.
    destruct (fit_transform texts) as [[v X]|] eqn:Ev; [|discriminate].
    destruct (fit X labels) as [m|] eqn:Em; [|discriminate].
    destruct (scores labels (map (sk_predict m) X)) as [s|]; [|discriminate].
    destruct (write env); cbn [fst snd vectorizer model models_dir];
      intros Hr; try discriminate Hr.
    injection Hr as <-. split; [reflexivity|].
    exists v, X, m. cbn [tr_model_name].
    split; [reflexivity|]. split; [exact Em|]. split; [reflexivity|].
    split; [reflexivity|]. intros _. eexists.
    split; [|split; [|apply fs_write_In]]; reflexivity.
Qed.

(** C3, as the code has it. [train_model] never raises
    [InsufficientDataError], whatever the training set. It checks nothing
    before fitting: the texts and labels go to the library as they are.
    When the featurizer fit, the classifier fit or the scoring raises, the
    call raises that error and leaves the directory and the service as they
    were. When the three return, the outcome is that of the save (for a
    plain model name): the error of [open] with nothing changed, the error
    of [pickle.dump] with the service unchanged, or a report, also for an
    empty or a single-class training set. *)
Theorem train_model_no_insufficient_data_check (training_data : list TrainingItem)
    (model_name : option string) (env : Env) (w : World) :
  let call := train_model training_data model_name env in
  let texts := map text training_data in
  let labels := map label training_data in
  let service_unchanged :=
    vectorizer (after call w) = vectorizer w /\ model (after call w) = model w in
  let unchanged :=
    models_dir (after call w) = models_dir w /\ service_unchanged in
  outcome call w <> Raise InsufficientDataError /\
  (fit_transform texts = None ->
     outcome call w = Raise SklearnError /\ unchanged) /\
  (forall v X, fit_transform texts = Some (v, X) -> fit X labels = None ->
     outcome call w = Raise SklearnError /\ unchanged) /\
  (forall v X m,
     fit_transform texts = Some (v, X) -> fit X labels = Some m ->
     scores labels (map (sk_predict m) X) = None ->
     outcome call w = Raise SklearnError /\ unchanged) /\
  (forall v X m s,
     fit_transform texts = Some (v, X) -> fit X labels = Some m ->
     scores labels (map (sk_predict m) X) = Some s ->
     plain_file_name model_name = true ->
     (write env = OpenFails -> outcome call w = Raise OSError /\ unchanged) /\
     (write env = DumpFails ->
        outcome call w = Raise PicklingError /\ service_unchanged) /\
     (write env = WriteOk ->
        outcome call w =
          Ok {| tr_model_name := model_path_of model_name (now env);
                tr_metrics := s;
                tr_training_samples := List.length training_data |})).
Proof.
  intros call texts labels service_unchanged unchanged.
  unfold unchanged, service_unchanged, call, outcome, after.
  rewrite train_model_cases. fold texts labels.
  split; [|split; [|split; [|split]]].
  - destruct (fit_transform texts) as [[v X]|]; [|discriminate].
    destruct (fit X labels) as [m|]; [|discriminate].
    destruct (scores labels (map (sk_predict m) X)) as [s|]; [|discriminate].
    destruct (write env); discriminate.
  - intros ->. cbn [fst snd models_dir vectorizer model]. auto.
  - intros v X -> ->. cbn [fst snd models_dir vectorizer model]. auto.
  - intros v X m -> -> ->. cbn [fst snd models_dir vectorizer model]. auto.
  - intros v X m s -> -> -> _. split; [|split]; intros ->;
      cbn [fst snd models_dir vectorizer model]; auto.
    unfold texts. now rewrite length_map.
Qed.


(** *** Construction: [_load_latest_model] and [_create_default_model] *)

Lemma create_default_cases (w : World) :
  _create_default_model w =
  match fit_transform dummy_texts with
  | None => (Raise SklearnError, w)
  | Some (v, X) =>
      match fit X dummy_labels with
      | None => (Raise SklearnError, w)
      | Some m =>
          (Ok tt, {| vectorizer := Some v; model := Some m;
                     models_dir := models_dir w;
                     log := log w ++ [CreatedDefaultModel] |})
      end
  end.
Proof.
  unfold _create_default_model. run.
  destruct (fit_transform dummy_texts) as [[v X]|]; [|reflexivity].
  destruct (fit X dummy_labels) as [m|]; reflexivity.
Qed.

(** Whatever happens, the default model leaves the directory alone, and
    when it returns both attributes are set. *)
Lemma create_default_spec (w : World) :
  models_dir (after _create_default_model w) = models_dir w /\
  (outcome _create_default_model w = Ok tt ->
     exists v X m,
       fit_transform dummy_texts = Some (v, X) /\ fit X dummy_labels = Some m /\
       vectorizer (after _create_default_model w) = Some v /\
       model (after _create_default_model w) = Some m) /\
  (forall e, outcome _create_default_model w = Raise e ->
     e = SklearnError /\ after _create_default_model w = w).
Proof.
  unfold after, outcome. rewrite create_default_cases.
  destruct (fit_transform dummy_texts) as [[v X]|].
  - destruct (fit X dummy_labels) as [m|] eqn:Ef; cbn [fst snd models_dir].
    + split; [reflexivity|]. split; [|discriminate].
      intros _. exists v, X, m. repeat split. exact Ef.
    + split; [reflexivity|]. split; [discriminate|].
      intros e He. injection He as <-. auto.
  - cbn [fst snd]. split; [reflexivity|]. split; [discriminate|].
    intros e He. injection He as <-. auto.
Qed.

(** With no [*.pkl] file, [_load_latest_model] is the default model: once
    in the [else] branch and, when that raised, once more in the handler. *)
Lemma load_latest_empty (w : World) :
  glob_pkl (models_dir w) = [] ->
  _load_latest_model w =
  match fit_transform dummy_texts with
  | None =>
      (Raise SklearnError,
       {| vectorizer := vectorizer w; model := model w; models_dir := models_dir w;
          log := (log w ++ [NoTrainedModel]) ++ [FailedToLoadModel SklearnError] |})
  | Some (v, X) =>
      match fit X dummy_labels with
      | None =>
          (Raise SklearnError,
           {| vectorizer := vectorizer w; model := model w; models_dir := models_dir w;
              log := (log w ++ [NoTrainedModel]) ++ [FailedToLoadModel SklearnError] |})
      | Some m =>
          (Ok tt, {| vectorizer := Some v; model := Some m;
                     models_dir := models_dir w;
                     log := (log w ++ [NoTrainedModel]) ++ [CreatedDefaultModel] |})
      end
  end.
Proof.
  intros Hg. unfold _load_latest_model.
  unfold try_except, bind at 1 2, get. rewrite Hg.
  unfold bind, logger. rewrite create_default_cases.
  cbn [vectorizer model models_dir log].
  destruct (fit_transform dummy_texts) as [[v X]|] eqn:Ef.
  - destruct (fit X dummy_labels) as [m|] eqn:Em; [reflexivity|].
    rewrite create_default_cases, Ef, Em. reflexivity.
  - rewrite create_default_cases, Ef. reflexivity.
Qed.

(** With [*.pkl] files, the one [max] picks is opened; when its bytes
    load and the dict has both keys, its objects become the attributes. *)
Lemma load_latest_loaded (w : World) (f : file) (fs : list file)
    (d : model_data) (v : Vectorizer) (m : Classifier) :
  glob_pkl (models_dir w) = f :: fs ->
  f_pickle (py_max st_mtime f fs) = Some d ->
  md_vectorizer d = Some v -> md_model d = Some m ->
  _load_latest_model w =
    (Ok tt, {| vectorizer := Some v; model := Some m; models_dir := models_dir w;
               log := log w ++ [LoadedModel (f_name (py_max st_mtime f fs))] |}).
Proof.
  intros Hg Hp Hv Hm. unfold _load_latest_model.
  unfold try_except, bind at 1, get. rewrite Hg.
  run. rewrite Hp, Hv, Hm. reflexivity.
Qed.

(** One call of the default model in the goal: what [create_default_spec]
    says of it, and its two outcomes. *)
Ltac default_model :=
  match goal with
  | |- context [_create_default_model ?W] =>
      let r := fresh "r" in
      let w' := fresh "w'" in
      let e := fresh "e" in
      destruct (create_default_spec W) as (? & ? & ?);
      unfold after, outcome in *;
      destruct (_create_default_model W) as [[[]|e] w'];
      cbn [fst snd vectorizer model models_dir log] in *
  end.

(** The constructor never touches the directory, and a service object that
    exists has both attributes set. *)
Lemma load_latest_spec (w : World) :
  models_dir (after _load_latest_model w) = models_dir w /\
  (outcome _load_latest_model w = Ok tt ->
     vectorizer (after _load_latest_model w) <> None /\
     model (after _load_latest_model w) <> None).
Proof.
  unfold after, outcome.
  destruct (_load_latest_model w) as [r w1] eqn:E. cbn [fst snd].
  revert E. unfold _load_latest_model, try_except, bind at 1, get.
  destruct (glob_pkl (models_dir w)) as [|f fs] eqn:Hg.
  - unfold bind, logger. default_model.
    + intros E; injection E as <- <-. split; [tauto|]. intros _.
      destruct H0 as (v & X & m & _ & _ & -> & ->); auto. split; discriminate.
    + destruct (H1 _ eq_refl) as [_ ->].
      cbn [vectorizer model models_dir log]. default_model.
      * intros E; injection E as <- <-. split; [tauto|]. intros _.
        destruct H3 as (v & X & m & _ & _ & -> & ->); auto. split; discriminate.
      * intros E; injection E as <- <-. split; [tauto | discriminate].
  - unfold pickle_load, getitem, bind, raise, ret, logger, set_vectorizer, set_model.
    destruct (f_pickle (py_max st_mtime f fs)) as [d|];
      [destruct (md_vectorizer d) as [v|]; [destruct (md_model d) as [m|]|]|];
      cbn [fst snd vectorizer model models_dir log].
    + intros E; injection E as <- <-. split; [reflexivity|].
      intros _. split; discriminate.
    + default_model.
      * intros E; injection E as <- <-. split; [tauto|]. intros _.
        destruct H0 as (v0 & X & m & _ & _ & -> & ->); auto. split; discriminate.
      * intros E; injection E as <- <-. split; [tauto | discriminate].
    + default_model.
      * intros E; injection E as <- <-. split; [tauto|]. intros _.
        destruct H0 as (v0 & X & m & _ & _ & -> & ->); auto. split; discriminate.
      * intros E; injection E as <- <-. split; [tauto | discriminate].
    + default_model.
      * intros E; injection E as <- <-. split; [tauto|]. intros _.
        destruct H0 as (v0 & X & m & _ & _ & -> & ->); auto. split; discriminate.
      * intros E; injection E as <- <-. split; [tauto | discriminate].
Qed.

(** *** [predict], step by step *)

Lemma py_index_raises {A : Type} (l : list A) (i : Z) (e : exn) :
  py_index l i = Raise e -> e = IndexError.
Proof.
  unfold py_index.
  destruct ((0 <=? _) && _)%Z; [|now intros [= <-]].
  destruct (nth_error l _); [discriminate | now intros [= <-]].
Qed.

Lemma predict_cases (text : string) (model_version : option string)
    (user_id : option string) (db : bool) (w : World) :
  let failed e :=
    (@Raise PredictionResult e,
     {| vectorizer := vectorizer w; model := model w; models_dir := models_dir w;
        log := log w ++ [PredictionFailed e] |}) in
  predict text model_version user_id db w =
  match vectorizer w, model w with
  | Some v, Some m =>
      let X := transform v (_preprocess_text text) in
      match py_index (predict_proba m X) (sk_predict m X) with
      | Ok confidence =>
          (Ok {| pr_prediction := label_of (sk_predict m X);
                 pr_confidence := confidence;
                 pr_explanation := _generate_explanation text (sk_predict m X);
                 pr_model_version :=
                   match model_version with Some v => v | None => "latest" end |},
           w)
      | Raise e => failed e
      end
  | _, _ => failed (ValueError "Model not loaded")
  end.
Proof.
  intros failed. unfold failed, predict. run.
  destruct (vectorizer w) as [v|] eqn:Ev; [|now rewrite ?Ev].
  destruct (model w) as [m|] eqn:Em; [|now rewrite ?Ev, ?Em].
  destruct (py_index (A:=Q) _ _) as [c|e]; [|now rewrite ?Ev, ?Em].
  destruct (db && truthy user_id); reflexivity.
Qed.

(** C7, as the code has it. On a directory without [*.pkl] files the
    constructor builds the default model in memory, from the six fixed
    examples (three labelled ham and three labelled spam), and writes
    nothing: the directory is the same afterwards. When the two fits
    return, the constructor returns and the attributes are the fitted default
    objects; on a service so constructed [predict] never finds the model
    unset. Constructing a service again on the same directory gives the same
    attributes again. *)
Theorem init_on_empty_directory (w : World) :
  glob_pkl (models_dir w) = [] ->
  let w' := after __init__ w in
  models_dir w' = models_dir w /\
  (In 0%Z dummy_labels /\ In 1%Z dummy_labels /\
   List.length dummy_texts = List.length dummy_labels) /\
  (forall v X m,
     fit_transform dummy_texts = Some (v, X) -> fit X dummy_labels = Some m ->
     outcome __init__ w = Ok tt /\ vectorizer w' = Some v /\ model w' = Some m) /\
  (outcome __init__ w = Ok tt ->
     (exists v X m,
        fit_transform dummy_texts = Some (v, X) /\ fit X dummy_labels = Some m /\
        vectorizer w' = Some v /\ model w' = Some m) /\
     forall text model_version user_id db,
       outcome (predict text model_version user_id db) w' <>
       Raise (ValueError "Model not loaded")) /\
  (vectorizer (after __init__ w') = vectorizer w' /\
   model (after __init__ w') = model w' /\
   models_dir (after __init__ w') = models_dir w).
Proof.
  intros Hg w'. unfold w', after, outcome, __init__. clear w'.
  pose proof (load_latest_empty
                {| vectorizer := None; model := None;
                   models_dir := models_dir w; log := log w |} Hg) as E0.
  cbn [vectorizer model models_dir log] in E0. rewrite E0. clear E0.
  split; [|split; [|split; [|split]]].
  - destruct (fit_transform dummy_texts) as [[v X]|];
      [destruct (fit X dummy_labels)|]; reflexivity.
  - unfold dummy_labels. simpl. tauto.
  - intros v X m -> ->. cbn [fst snd vectorizer model]. auto.
  - destruct (fit_transform dummy_texts) as [[v X]|] eqn:Ef;
      [destruct (fit X dummy_labels) as [m|] eqn:Em|];
      cbn [fst snd]; intros H; try discriminate H.
    split.
    + exists v, X, m. auto.
    + intros text mv uid db. rewrite predict_cases. cbn [vectorizer model].
      destruct (py_index (A:=Q) _ _) as [c|e] eqn:Ei; cbn [fst]; [discriminate|].
      apply py_index_raises in Ei. subst e. discriminate.
  - destruct (fit_transform dummy_texts) as [[v X]|] eqn:Ef;
      [destruct (fit X dummy_labels) as [m|] eqn:Em|];
      cbn [fst snd vectorizer model models_dir log];
      (rewrite load_latest_empty by exact Hg);
      rewrite Ef, ?Em; cbn [fst snd vectorizer model models_dir]; auto.
Qed.

(** C4, as the code has it. With [*.pkl] files in the directory, the
    constructor selects by file modification time: the selected file is the
    first in directory order whose [st_mtime] is greatest (every file
    before it is strictly older, none after it is newer). When its bytes
    load and the dict has both objects, these become the attributes of the
    service. *)
Theorem load_latest_selects_by_mtime (w : World) (f : file) (fs : list file) :
  glob_pkl (models_dir w) = f :: fs ->
  let latest := py_max st_mtime f fs in
  (exists pre post,
     f :: fs = pre ++ latest :: post /\
     (forall g, In g pre -> (st_mtime g < st_mtime latest)%Z) /\
     (forall g, In g post -> (st_mtime g <= st_mtime latest)%Z)) /\
  (forall d v m,
     f_pickle latest = Some d -> md_vectorizer d = Some v -> md_model d = Some m ->
     outcome __init__ w = Ok tt /\
     vectorizer (after __init__ w) = Some v /\
     model (after __init__ w) = Some m).
Proof.
  intros Hg latest. split.
  - apply py_max_first.
  - intros d v m Hp Hv Hm. unfold outcome, after, __init__.
    rewrite (load_latest_loaded _ f fs d v m); auto.
Qed.

(** C1, as the code has it. [predict] takes the featurizer and classifier
    from the attributes of the service whatever [model_version] is, and an
    omitted [model_version] is ["latest"]: the argument is only copied into
    the response. The call never raises [ModelNotFoundError]; its label,
    confidence and explanation, or the error it raises, are the same for
    every [model_version] and every content of the model directory. *)
Theorem predict_uses_active_model (text : string) (model_version : option string)
    (user_id : option string) (db : bool) (w : World) :
  let call := predict text model_version user_id db in
  outcome call w <> Raise ModelNotFoundError /\
  (forall r, outcome call w = Ok r ->
     pr_model_version r =
       match model_version with Some v => v | None => "latest" end /\
     exists v m,
       vectorizer w = Some v /\ model w = Some m /\
       pr_prediction r = label_of (sk_predict m (transform v (_preprocess_text text))) /\
       py_index (predict_proba m (transform v (_preprocess_text text)))
                (sk_predict m (transform v (_preprocess_text text)))
         = Ok (pr_confidence r)) /\
  (forall (model_version' : option string) (dir' : list file),
     match outcome call w,
           outcome (predict text model_version' user_id db)
             {| vectorizer := vectorizer w; model := model w;
                models_dir := dir'; log := log w |} with
     | Ok r, Ok r' =>
         pr_prediction r = pr_prediction r' /\
         pr_confidence r = pr_confidence r' /\
         pr_explanation r = pr_explanation r'
     | Raise e, Raise e' => e = e'
     | _, _ => False
     end).
Proof.
  intros call. unfold call, outcome.
  split; [|split].
  - rewrite predict_cases.
    destruct (vectorizer w) as [v|]; [|discriminate].
    destruct (model w) as [m|]; [|discriminate]. cbv zeta.
    destruct (py_index (A:=Q) _ _) as [c|e] eqn:Ei; cbn [fst]; [discriminate|].
    apply py_index_raises in Ei. subst e. discriminate.
  - intros r. rewrite predict_cases.
    destruct (vectorizer w) as [v|]; [|discriminate].
    destruct (model w) as [m|]; [|discriminate]. cbv zeta.
    destruct (py_index (A:=Q) _ _) as [c|e] eqn:Ei; cbn [fst]; [|discriminate].
    intros Hr. injection Hr as <-. cbn [pr_model_version pr_prediction pr_confidence].
    split; [reflexivity|]. exists v, m. auto.
  - intros mv' dir'. rewrite !predict_cases. cbn [vectorizer model].
    destruct (vectorizer w) as [v|]; [|reflexivity].
    destruct (model w) as [m|]; [|reflexivity]. cbv zeta.
    destruct (py_index (A:=Q) _ _) as [c|e]; cbn [fst]; auto.
Qed.


End ServiceProperties.

(* ===================================================================== *)
(** * The service on concrete inputs                                        *)
(* ===================================================================== *)

Import Toy.


(** *** [predict] *)

(** C1 fails on the code: on a service whose model directory is empty, so
    that no artifact named ["v999"] exists, [predict] with
    [model_version="v999"] returns a response computed with the default
    model and does not raise [ModelNotFoundError]. *)
Lemma predict_unknown_version_succeeds :
  glob_pkl (models_dir started) = [] /\
  outcome (predict probe (Some "v999") None false) started = Ok (probe_response "v999") /\
  outcome (predict probe (Some "v999") None false) started <> Raise ModelNotFoundError.
Proof.
  split; [reflexivity|]. split; [reflexivity|]. discriminate.
Qed.

Lemma predict_uses_active_model_witness :
  outcome (predict probe (Some "v999") None false) started = Ok (probe_response "v999") /\
  outcome (predict probe None None false) started = Ok (probe_response "latest") /\
  pr_model_version (probe_response "v999") = "v999".
Proof.
  assert (H : outcome (predict probe (Some "v999") None false) started
              = Ok (probe_response "v999")) by reflexivity.
  split; [exact H|]. split; [reflexivity|].
  destruct (predict_uses_active_model probe (Some "v999") None false started)
    as (_ & Hecho & _).
  exact (proj1 (Hecho _ H)).
Defined.



(** *** [train_model] *)

(** C3 fails on the code: an empty training set and a training set with
    spam examples only make [train_model] raise the error of the library's
    fit, not [InsufficientDataError]; for the single-class set the featurizer
    has been fitted by then. *)
Lemma train_degenerate_sets_raise_library_error :
  outcome (train_model [] None (at_noon 0 100 WriteOk)) started = Raise SklearnError /\
  outcome (train_model [] None (at_noon 0 100 WriteOk)) started
    <> Raise InsufficientDataError /\
  fit_transform (map text only_spam) <> None /\
  outcome (train_model only_spam None (at_noon 0 100 WriteOk)) started
    = Raise SklearnError /\
  outcome (train_model only_spam None (at_noon 0 100 WriteOk)) started
    <> Raise InsufficientDataError.
Proof.
  repeat split; try reflexivity; discriminate.
Qed.

Lemma train_model_no_insufficient_data_check_witness :
  outcome (train_model two_examples None (at_noon 0 100 WriteOk)) started
    <> Raise InsufficientDataError /\
  outcome (train_model only_spam None (at_noon 0 100 WriteOk)) started
    = Raise SklearnError /\
  outcome (train_model two_examples (Some "m") (at_noon 0 100 OpenFails)) started
    = Raise OSError /\
  outcome (train_model two_examples (Some "m") (at_noon 0 100 WriteOk)) started
    = Ok {| tr_model_name := "m.pkl";
            tr_metrics := {| accuracy := 1 # 2; precision := 0; recall := 0; f1 := 0 |};
            tr_training_samples := 2 |}.
Proof.
  split; [|split; [|split]].
  - exact (proj1 (train_model_no_insufficient_data_check two_examples None
                    (at_noon 0 100 WriteOk) started)).
  - destruct (train_model_no_insufficient_data_check only_spam None
                (at_noon 0 100 WriteOk) started) as (_ & _ & H & _).
    exact (proj1 (H (map text only_spam) (map text only_spam) eq_refl eq_refl)).
  - destruct (train_model_no_insufficient_data_check two_examples (Some "m")
                (at_noon 0 100 OpenFails) started) as (_ & _ & _ & _ & H).
    destruct (H (map text two_examples) (map text two_examples)
                (map label two_examples)
                {| accuracy := 1 # 2; precision := 0; recall := 0; f1 := 0 |}
                eq_refl eq_refl eq_refl eq_refl) as (Hopen & _ & _).
    exact (proj1 (Hopen eq_refl)).
  - destruct (train_model_no_insufficient_data_check two_examples (Some "m")
                (at_noon 0 100 WriteOk) started) as (_ & _ & _ & _ & H).
    destruct (H (map text two_examples) (map text two_examples)
                (map label two_examples)
                {| accuracy := 1 # 2; precision := 0; recall := 0; f1 := 0 |}
                eq_refl eq_refl eq_refl eq_refl) as (_ & _ & Hok).
    exact (Hok eq_refl).
Defined.

Lemma train_model_swaps_after_save_witness :
  (outcome (train_model two_examples None (at_noon 0 100 DumpFails)) started
     = Raise PicklingError /\
   vectorizer (after (train_model two_examples None (at_noon 0 100 DumpFails)) started)
     = vectorizer started /\
   model (after (train_model two_examples None (at_noon 0 100 DumpFails)) started)
     = model started) /\
  (let saved := after (train_model two_examples (Some "m") (at_noon 0 100 WriteOk))
                      started in
   exists v X m d,
     fit_transform (map text two_examples) = Some (v, X) /\
     fit X (map label two_examples) = Some m /\
     vectorizer saved = Some v /\ model saved = Some m /\
     md_vectorizer d = Some v /\ md_model d = Some m /\
     In {| f_name := "m.pkl"; st_mtime := 100; f_pickle := Some d |}
        (models_dir saved)).
Proof.
  split.
  - assert (H : outcome (train_model two_examples None (at_noon 0 100 DumpFails)) started
                = Raise PicklingError) by reflexivity.
    split; [exact H|].
    destruct (train_model_swaps_after_save two_examples None
                (at_noon 0 100 DumpFails) started) as (_ & Hkeep & _).
    exact (Hkeep _ H).
  - destruct (train_model_swaps_after_save two_examples (Some "m")
                (at_noon 0 100 WriteOk) started) as (_ & _ & Hswap).
    destruct (Hswap _ eq_refl) as (_ & v & X & m & Hv & Hm & Hsv & Hsm & Hfile).
    destruct (Hfile eq_refl) as (d & Hdv & Hdm & Hin).
    exists v, X, m, d. repeat split; assumption.
Defined.



(** C8 fails on the code, which breaks it on the training path: at
    inference ["Buy  NOW"] reaches the featurizer as ["buy now"], while
    [train_model] hands the same text to the featurizer's fit as it came.
    The stand-in featurizer keeps the corpus it was fitted on, and after
    training that corpus is the raw texts, not their normal forms. *)
Theorem training_texts_not_preprocessed :
  let call := train_model other_examples None (at_noon 0 100 WriteOk) in
  _preprocess_text "Buy  NOW" = "buy now" /\
  (forall v : list string, transform v (_preprocess_text "Buy  NOW") = "buy now") /\
  vectorizer (after call started) = Some ["Buy  NOW"; "Hello friend"; "see you"] /\
  map _preprocess_text (map text other_examples) = ["buy now"; "hello friend"; "see you"] /\
  vectorizer (after call started)
    <> Some (map _preprocess_text (map text other_examples)).
Proof.
  repeat split; try reflexivity; discriminate.
Qed.

(** *** Construction *)

(** C4 fails on the code: two directories hold the same two artifacts under
    the same names and differ only in the modification times of the files;
    the constructor loads a different artifact in each. Nothing inside an
    artifact decides the choice. *)
Lemma latest_follows_file_mtime :
  map f_name dir_a_touched_last = map f_name dir_b_touched_last /\
  map f_pickle dir_a_touched_last = map f_pickle dir_b_touched_last /\
  vectorizer (after __init__ (on_dir dir_a_touched_last)) = Some ["first"] /\
  vectorizer (after __init__ (on_dir dir_b_touched_last)) = Some ["second"].
Proof.
  repeat split; reflexivity.
Qed.

Lemma load_latest_selects_by_mtime_witness :
  glob_pkl (models_dir (on_dir dir_b_touched_last)) = dir_b_touched_last /\
  outcome __init__ (on_dir dir_b_touched_last) = Ok tt /\
  vectorizer (after __init__ (on_dir dir_b_touched_last)) = Some ["second"] /\
  model (after __init__ (on_dir dir_b_touched_last)) = Some [0; 1]%Z.
Proof.
  split; [reflexivity|].
  destruct (load_latest_selects_by_mtime (on_dir dir_b_touched_last)
              {| f_name := "a.pkl"; st_mtime := 10;
                 f_pickle := Some (artifact ["first"]) |}
              [ {| f_name := "b.pkl"; st_mtime := 20;
                   f_pickle := Some (artifact ["second"]) |} ]
              eq_refl) as [_ Hload].
  exact (Hload (artifact ["second"]) ["second"] [0; 1]%Z eq_refl eq_refl eq_refl).
Defined.

(** C7 fails on the code: constructing the service on an empty directory
    succeeds and sets both attributes, yet the directory is still empty
    afterwards and [list_models] returns no model: the default model is
    never written. *)
Lemma default_model_is_not_persisted :
  models_dir fresh = [] /\
  outcome __init__ fresh = Ok tt /\
  vectorizer (after __init__ fresh) = Some dummy_texts /\
  models_dir (after __init__ fresh) = [] /\
  outcome list_models (after __init__ fresh) = Ok [].
Proof.
  repeat split; reflexivity.
Qed.

Lemma init_on_empty_directory_witness :
  glob_pkl (models_dir fresh) = [] /\
  models_dir (after __init__ fresh) = models_dir fresh /\
  outcome __init__ fresh = Ok tt /\
  vectorizer (after __init__ fresh) = Some dummy_texts /\
  model (after __init__ fresh) = Some dummy_labels.
Proof.
  split; [reflexivity|].
  destruct (init_on_empty_directory fresh eq_refl) as (Hdir & _ & Hfit & _).
  split; [exact Hdir|].
  exact (Hfit dummy_texts dummy_texts dummy_labels eq_refl eq_refl).
Defined.

(** *** [list_models] and [_generate_explanation] *)

(** C9 fails on the code: two directories hold the same two artifacts under
    the same names and differ only in the modification times of the files;
    [list_models] lists them in opposite orders. No creation time is kept
    in an artifact, and none decides the order. *)
Lemma listing_order_follows_file_mtime :
  map f_name dir_a_touched_last = map f_name dir_b_touched_last /\
  map f_pickle dir_a_touched_last = map f_pickle dir_b_touched_last /\
  (exists la lb,
     outcome list_models (on_dir dir_a_touched_last) = Ok la /\
     outcome list_models (on_dir dir_b_touched_last) = Ok lb /\
     map mi_name la = ["a"; "b"] /\
     map mi_name lb = ["b"; "a"]).
Proof.
  split; [reflexivity|]. split; [reflexivity|].
  eexists. eexists. repeat split; reflexivity.
Qed.

Lemma list_models_sorted_and_skips_corrupt_witness :
  outcome list_models (on_dir dir_with_corrupt) =
    Ok [ {| mi_name := "new"; mi_path := "ml/models/new.pkl"; mi_metrics := None;
            mi_training_samples := 1; mi_created := 20 |};
         {| mi_name := "old"; mi_path := "ml/models/old.pkl"; mi_metrics := None;
            mi_training_samples := 1; mi_created := 5 |} ] /\
  log (after list_models (on_dir dir_with_corrupt)) =
    [FailedToLoadModelInfo "ml/models/broken.pkl" UnpicklingError].
Proof.
  destruct (list_models_sorted_and_skips_corrupt (on_dir dir_with_corrupt))
    as (l & Hrun & _).
  unfold outcome, after. rewrite Hrun. cbn [fst snd log].
  split; [|reflexivity].
  apply (f_equal fst) in Hrun. cbn [fst] in Hrun. rewrite <- Hrun. reflexivity.
Defined.


(** *** Normalisation, on examples *)

Example preprocess_collapses_whitespace :
  _preprocess_text "  URGENT:   Win  cash now " = "urgent: win cash now".
Proof. reflexivity. Qed.

Example strftime_pads_fields :
  strftime {| year := 2024; month := 3; day := 9;
              hour := 12; minute := 0; second := 7 |} = "20240309_120007".
Proof. reflexivity. Qed.

Example py_index_negative : py_index [1 # 4; 3 # 4] (-1) = Ok (3 # 4).
Proof. reflexivity. Qed.

Example py_index_out_of_range : py_index [1 # 4; 3 # 4] 2 = Raise IndexError.
Proof. reflexivity. Qed.

(* ===================================================================== *)
(** * Further properties of the service                                     *)
(* ===================================================================== *)

(** ** [_preprocess_text]: the shape of a normalised text *)

Lemma lower_char_idem (c : ascii) : PyStr.lower_char (PyStr.lower_char c) = PyStr.lower_char c.
Proof. destruct c as [[] [] [] [] [] [] [] []]; reflexivity. Qed.

Lemma isspace_lower_char (c : ascii) : PyStr.isspace (PyStr.lower_char c) = PyStr.isspace c.
Proof. destruct c as [[] [] [] [] [] [] [] []]; reflexivity. Qed.

Lemma lower_chars (s : string) :
  list_ascii_of_string (PyStr.lower s) = map PyStr.lower_char (list_ascii_of_string s).
Proof. induction s as [|c s IH]; simpl; [reflexivity | now rewrite IH]. Qed.

Lemma lower_append (a b : string) :
  PyStr.lower (a ++ b) = (PyStr.lower a ++ PyStr.lower b)%string.
Proof. induction a as [|c a IH]; simpl; [reflexivity | now rewrite IH]. Qed.

Lemma lower_fixed (s : string) :
  (forall c, In c (list_ascii_of_string s) -> PyStr.lower_char c = c) ->
  PyStr.lower s = s.
Proof.
  induction s as [|c s IH]; simpl; intros H; [reflexivity|].
  rewrite (H c (or_introl eq_refl)), IH; auto.
Qed.

Lemma chars_append (a b : string) :
  list_ascii_of_string (a ++ b) = list_ascii_of_string a ++ list_ascii_of_string b.
Proof. induction a as [|c a IH]; simpl; [reflexivity | now rewrite IH]. Qed.

(** The words [split] cuts are made of characters of the text (or of the
    word being read), none of them whitespace, and no word is empty. *)
Lemma split_from_words (P : ascii -> Prop) (s : string) (cur : list ascii) :
  (forall c, In c cur -> P c /\ PyStr.isspace c = false) ->
  (forall c, In c (list_ascii_of_string s) -> P c) ->
  Forall (fun w => w <> EmptyString /\
                   forall c, In c (list_ascii_of_string w) ->
                             P c /\ PyStr.isspace c = false)
         (PyStr.split_from cur s).
Proof.
  revert cur. induction s as [|c s IH]; intros cur Hcur Hs.
  - cbn [PyStr.split_from]. destruct cur as [|d cur]; constructor; [|constructor].
    split.
    + intros E. apply (f_equal list_ascii_of_string) in E.
      rewrite list_ascii_of_string_of_list_ascii in E. simpl in E.
      now destruct (rev cur).
    + intros x Hx. rewrite list_ascii_of_string_of_list_ascii in Hx.
      apply in_rev in Hx. now apply Hcur.
  - cbn [PyStr.split_from]. destruct (PyStr.isspace c) eqn:Ec.
    + assert (Hrest : Forall (fun w => w <> EmptyString /\
                        forall x, In x (list_ascii_of_string w) ->
                                  P x /\ PyStr.isspace x = false)
                        (PyStr.split_from [] s)).
      { apply IH; [intros x []|]. intros x Hx. apply Hs. now right. }
      destruct cur as [|d cur]; [exact Hrest|]. constructor; [|exact Hrest].
      split.
      * intros E. apply (f_equal list_ascii_of_string) in E.
        rewrite list_ascii_of_string_of_list_ascii in E. simpl in E.
        now destruct (rev cur).
      * intros x Hx. rewrite list_ascii_of_string_of_list_ascii in Hx.
        apply in_rev in Hx. now apply Hcur.
    + apply IH.
      * intros x [<-|Hx]; [|now apply Hcur]. split; [|exact Ec].
        apply Hs. now left.
      * intros x Hx. apply Hs. now right.
Qed.

Lemma split_from_word (w : string) (cur : list ascii) (rest : string) :
  (forall c, In c (list_ascii_of_string w) -> PyStr.isspace c = false) ->
  PyStr.split_from cur (w ++ rest) =
  PyStr.split_from (rev (list_ascii_of_string w) ++ cur) rest.
Proof.
  revert cur. induction w as [|c w IH]; intros cur Hw; [reflexivity|].
  cbn [append PyStr.split_from list_ascii_of_string].
  rewrite (Hw c (or_introl eq_refl)).
  rewrite IH by (intros x Hx; apply Hw; now right).
  cbn [rev]. now rewrite <- app_assoc.
Qed.

Lemma append_empty_r (s : string) : (s ++ EmptyString)%string = s.
Proof. induction s as [|c s IH]; simpl; [reflexivity | now rewrite IH]. Qed.

Lemma split_from_one_word (w : string) :
  w <> EmptyString ->
  (forall c, In c (list_ascii_of_string w) -> PyStr.isspace c = false) ->
  forall rest,
    PyStr.split_from [] (w ++ String " " rest) = w :: PyStr.split_from [] rest.
Proof.
  intros Hne Hw rest. rewrite split_from_word by exact Hw. rewrite app_nil_r.
  cbn [PyStr.split_from]. change (PyStr.isspace " ") with true. cbv iota.
  destruct (rev (list_ascii_of_string w)) as [|d l] eqn:E.
  - apply (f_equal (@rev ascii)) in E. rewrite rev_involutive in E. simpl in E.
    destruct w; [now elim Hne | discriminate].
  - rewrite <- E, rev_involutive, string_of_list_ascii_of_string. reflexivity.
Qed.

Lemma split_from_last_word (w : string) :
  w <> EmptyString ->
  (forall c, In c (list_ascii_of_string w) -> PyStr.isspace c = false) ->
  PyStr.split_from [] w = [w].
Proof.
  intros Hne Hw. rewrite <- (append_empty_r w) at 1.
  rewrite split_from_word by exact Hw. rewrite app_nil_r.
  cbn [PyStr.split_from].
  destruct (rev (list_ascii_of_string w)) as [|d l] eqn:E.
  - apply (f_equal (@rev ascii)) in E. rewrite rev_involutive in E. simpl in E.
    destruct w; [now elim Hne | discriminate].
  - rewrite <- E, rev_involutive, string_of_list_ascii_of_string. reflexivity.
Qed.

(** Joining words with one space and splitting again gives the words
    back. *)
Lemma split_join_words (ws : list string) :
  Forall (fun w => w <> EmptyString /\
                   forall c, In c (list_ascii_of_string w) -> PyStr.isspace c = false) ws ->
  PyStr.split (PyStr.join " " ws) = ws.
Proof.
  unfold PyStr.split, PyStr.join.
  induction ws as [|w ws IH]; intros Hws; [reflexivity|].
  apply Forall_cons_iff in Hws. destruct Hws as [[Hne Hw] Hws].
  destruct ws as [|w2 ws].
  - cbn [String.concat]. now apply split_from_last_word.
  - change (String.concat " " (w :: w2 :: ws))
      with (w ++ String " " (String.concat " " (w2 :: ws)))%string.
    rewrite split_from_one_word by assumption. now rewrite IH.
Qed.

Lemma join_chars (ws : list string) (c : ascii) :
  In c (list_ascii_of_string (PyStr.join " " ws)) ->
  c = " "%char \/ exists w, In w ws /\ In c (list_ascii_of_string w).
Proof.
  unfold PyStr.join. induction ws as [|w ws IH]; [intros []|].
  destruct ws as [|w2 ws].
  - cbn [String.concat]. intros H. right. exists w. split; [now left | exact H].
  - change (String.concat " " (w :: w2 :: ws))
      with (w ++ String " " (String.concat " " (w2 :: ws)))%string.
    rewrite chars_append. intros H. apply in_app_or in H.
    destruct H as [H|[H|H]].
    + right. exists w. split; [now left | exact H].
    + left. now symmetry.
    + destruct (IH H) as [E|(w' & Hin & Hc)]; [now left|].
      right. exists w'. split; [now right | exact Hc].
Qed.

Lemma split_lower_words (text : string) :
  Forall (fun w => w <> EmptyString /\
                   forall c, In c (list_ascii_of_string w) ->
                             PyStr.lower_char c = c /\ PyStr.isspace c = false)
         (PyStr.split (PyStr.lower text)).
Proof.
  apply split_from_words; [intros c []|].
  intros c Hc. rewrite lower_chars in Hc. apply in_map_iff in Hc.
  destruct Hc as (d & <- & _). apply lower_char_idem.
Qed.

Lemma preprocess_text_chars (text : string) (c : ascii) :
  In c (list_ascii_of_string (_preprocess_text text)) ->
  PyStr.lower_char c = c /\ (PyStr.isspace c = true -> c = " "%char).
Proof.
  intros Hc. unfold _preprocess_text in Hc. apply join_chars in Hc.
  destruct Hc as [->|(w & Hin & Hc)]; [split; [reflexivity | auto]|].
  pose proof (split_lower_words text) as Hw.
  rewrite Forall_forall in Hw. destruct (Hw w Hin) as [_ Hchars].
  destruct (Hchars c Hc) as [Hl Hs]. split; [exact Hl|]. rewrite Hs. discriminate.
Qed.

(** X1. For a text of characters below 128, the text [_preprocess_text]
    returns is a sequence of non-empty words joined by single spaces; no
    character of it is a capital letter, and the only whitespace characters
    in it are the spaces between the words. *)
Theorem preprocess_text_normal_form (text : string) :
  PyStr.isascii text = true ->
  exists words : list string,
    _preprocess_text text = PyStr.join " " words /\
    Forall (fun w => w <> EmptyString /\
                     forall c, In c (list_ascii_of_string w) ->
                               PyStr.lower_char c = c /\ PyStr.isspace c = false) words /\
    forall c, In c (list_ascii_of_string (_preprocess_text text)) ->
              PyStr.lower_char c = c /\ (PyStr.isspace c = true -> c = " "%char).
Proof.
  intros _. exists (PyStr.split (PyStr.lower text)).
  split; [reflexivity|]. split; [apply split_lower_words|].
  apply preprocess_text_chars.
Qed.

(** X2. For a text of characters below 128, normalising the normalised
    text changes nothing, and the words of the normalised text are the words
    of the lower-cased text. *)
Theorem preprocess_text_idempotent (text : string) :
  PyStr.isascii text = true ->
  _preprocess_text (_preprocess_text text) = _preprocess_text text /\
  PyStr.split (_preprocess_text text) = PyStr.split (PyStr.lower text).
Proof.
  intros _. pose proof (split_lower_words text) as Hw.
  assert (Hsplit : PyStr.split (_preprocess_text text) = PyStr.split (PyStr.lower text)).
  { unfold _preprocess_text. apply split_join_words.
    eapply Forall_impl; [|exact Hw]. intros w [Hne Hc]. split; [exact Hne|].
    intros c Hin. now apply Hc. }
  split; [|exact Hsplit].
  unfold _preprocess_text at 1.
  rewrite lower_fixed.
  - rewrite Hsplit. reflexivity.
  - intros c Hc. now apply (preprocess_text_chars text).
Qed.

Lemma split_from_nonempty (s : string) (cur : list ascii) :
  cur <> [] -> PyStr.split_from cur s <> [].
Proof.
  revert cur. induction s as [|c s IH]; intros cur Hne; cbn [PyStr.split_from].
  - destruct cur; [now elim Hne | discriminate].
  - destruct (PyStr.isspace c).
    + destruct cur; [now elim Hne | discriminate].
    + apply IH. discriminate.
Qed.

Lemma split_empty_iff (s : string) :
  PyStr.split s = [] <->
  forall c, In c (list_ascii_of_string s) -> PyStr.isspace c = true.
Proof.
  unfold PyStr.split. induction s as [|c s IH]; cbn [PyStr.split_from list_ascii_of_string].
  - split; [intros _ c [] | reflexivity].
  - destruct (PyStr.isspace c) eqn:Ec.
    + rewrite IH. split.
      * intros H x [<-|Hx]; auto.
      * intros H x Hx. apply H. now right.
    + split.
      * intros H. now apply split_from_nonempty in H.
      * intros H. specialize (H c (or_introl eq_refl)). congruence.
Qed.

Lemma join_empty (ws : list string) :
  Forall (fun w => w <> EmptyString) ws ->
  PyStr.join " " ws = EmptyString -> ws = [].
Proof.
  unfold PyStr.join. destruct ws as [|w ws]; [reflexivity|].
  intros Hws. apply Forall_cons_iff in Hws. destruct Hws as [Hne _].
  destruct ws as [|w2 ws]; cbn [String.concat].
  - intros ->. now elim Hne.
  - destruct w; [now elim Hne | discriminate].
Qed.

(** X3. For a text of characters below 128, [_preprocess_text] returns
    the empty string exactly when the text consists of whitespace only (the
    empty text included). *)
Theorem preprocess_text_empty_iff (text : string) :
  PyStr.isascii text = true ->
  (_preprocess_text text = EmptyString <->
   forall c, In c (list_ascii_of_string text) -> PyStr.isspace c = true).
Proof.
  intros _.
  assert (Hlow : (forall c, In c (list_ascii_of_string (PyStr.lower text)) ->
                            PyStr.isspace c = true) <->
                 (forall c, In c (list_ascii_of_string text) -> PyStr.isspace c = true)).
  { rewrite lower_chars. split.
    - intros H c Hc. rewrite <- isspace_lower_char. apply H. now apply in_map.
    - intros H c Hc. apply in_map_iff in Hc. destruct Hc as (d & <- & Hd).
      rewrite isspace_lower_char. now apply H. }
  rewrite <- Hlow, <- split_empty_iff. unfold _preprocess_text. split.
  - intros H. apply join_empty in H; [exact H|].
    eapply Forall_impl; [|apply split_lower_words]. now intros w [Hne _].
  - intros ->. reflexivity.
Qed.

(** ** [_generate_explanation]: case and context *)

Lemma lower_idem (s : string) : PyStr.lower (PyStr.lower s) = PyStr.lower s.
Proof.
  induction s as [|c s IH]; simpl; [reflexivity|].
  now rewrite lower_char_idem, IH.
Qed.

Lemma keywords_found_filter (text : string) (prediction : Z) :
  keywords_found (_generate_explanation text prediction) =
  filter (fun k => PyStr.contains k (PyStr.lower text))
         (if (prediction =? 1)%Z then spam_keywords else ham_keywords).
Proof.
  unfold _generate_explanation; cbn [keywords_found].
  destruct (prediction =? 1)%Z; now rewrite scan_keywords_filter.
Qed.

Lemma filter_length_le {A : Type} (p : A -> bool) (l : list A) :
  (List.length (filter p l) <= List.length l)%nat.
Proof.
  induction l as [|x l IH]; simpl; [lia|]. destruct (p x); simpl; lia.
Qed.

(** X4. For texts of characters below 128: the explanation does not
    depend on the case of the text; a keyword found in a text is found in
    every text that contains it; and at most eight keywords are reported for
    a spam prediction, at most five for a ham prediction. *)
Theorem explanation_case_and_context (text : string) (prediction : Z) :
  PyStr.isascii text = true ->
  _generate_explanation (PyStr.lower text) prediction
    = _generate_explanation text prediction /\
  (forall (before behind k : string),
     PyStr.isascii before = true -> PyStr.isascii behind = true ->
     In k (keywords_found (_generate_explanation text prediction)) ->
     In k (keywords_found
             (_generate_explanation (before ++ text ++ behind) prediction))) /\
  (List.length (keywords_found (_generate_explanation text prediction))
     <= if (prediction =? 1)%Z then 8 else 5)%nat.
Proof.
  intros _. split; [|split].
  - unfold _generate_explanation. now rewrite lower_idem.
  - intros before behind k _ _. rewrite !keywords_found_filter, !filter_In.
    intros [Hk Hc]. split; [exact Hk|].
    apply contains_iff in Hc. destruct Hc as (pre & post & E).
    apply contains_iff. rewrite !lower_append, E.
    exists (PyStr.lower before ++ pre)%string, (post ++ PyStr.lower behind)%string.
    clear. induction (PyStr.lower before) as [|c b IH]; simpl.
    + induction pre as [|c pre IHp]; simpl; [|now rewrite IHp].
      induction k as [|c k IHk]; simpl; [reflexivity | now rewrite IHk].
    + now rewrite IH.
  - rewrite keywords_found_filter.
    etransitivity; [apply filter_length_le|].
    destruct (prediction =? 1)%Z; simpl; lia.
Qed.

(** ** [predict] *)

Lemma py_index_ok_iff {A : Type} (l : list A) (i : Z) :
  (exists a, py_index l i = Ok a) <->
  (- Z.of_nat (List.length l) <= i < Z.of_nat (List.length l))%Z.
Proof.
  unfold py_index.
  set (n := Z.of_nat (List.length l)).
  destruct (i <? 0)%Z eqn:Ei; [apply Z.ltb_lt in Ei | apply Z.ltb_ge in Ei].
  - destruct ((0 <=? n + i) && (n + i <? n))%Z eqn:Eb.
    + apply andb_true_iff in Eb. destruct Eb as [E1 E2].
      apply Z.leb_le in E1. apply Z.ltb_lt in E2.
      destruct (nth_error l (Z.to_nat (n + i))) as [a|] eqn:En.
      * split; [lia | eauto].
      * apply nth_error_None in En. unfold n in *. lia.
    + apply andb_false_iff in Eb. split; [intros [a H]; discriminate|].
      destruct Eb as [E|E]; [apply Z.leb_gt in E | apply Z.ltb_ge in E]; lia.
  - destruct ((0 <=? i) && (i <? n))%Z eqn:Eb.
    + apply andb_true_iff in Eb. destruct Eb as [E1 E2].
      apply Z.leb_le in E1. apply Z.ltb_lt in E2.
      destruct (nth_error l (Z.to_nat i)) as [a|] eqn:En.
      * split; [lia | eauto].
      * apply nth_error_None in En. unfold n in *. lia.
    + apply andb_false_iff in Eb. split; [intros [a H]; discriminate|].
      destruct Eb as [E|E]; [apply Z.leb_gt in E | apply Z.ltb_ge in E]; lia.
Qed.

Section PredictProperties.

Context {SK : Sklearn}.

(** X5. [predict] raises in two situations only. When the service has no
    featurizer or no classifier it raises [ValueError("Model not loaded")].
    When it has both, it raises [IndexError] exactly if the predicted class,
    used as an index (negative values counting from the end), lies outside
    the row of probabilities; otherwise it returns. *)
Theorem predict_failures (text : string) (model_version : option string)
    (user_id : option string) (db : bool) (w : World) :
  let call := predict text model_version user_id db in
  ((vectorizer w = None \/ model w = None) ->
     outcome call w = Raise (ValueError "Model not loaded")) /\
  (forall v m,
     vectorizer w = Some v -> model w = Some m ->
     let X := transform v (_preprocess_text text) in
     let n := Z.of_nat (List.length (predict_proba m X)) in
     ((- n <= sk_predict m X < n)%Z -> exists r, outcome call w = Ok r) /\
     (~ (- n <= sk_predict m X < n)%Z -> outcome call w = Raise IndexError)).
Proof.
  intros call. unfold call, outcome. rewrite predict_cases. split.
  - intros [->| ->]; [reflexivity|]. now destruct (vectorizer w).
  - intros v m Hv Hm. cbv zeta. rewrite Hv, Hm.
    set (X := transform v (_preprocess_text text)).
    set (n := Z.of_nat (List.length (predict_proba m X))).
    pose proof (py_index_ok_iff (predict_proba m X) (sk_predict m X)) as Hi.
    fold n in Hi.
    destruct (py_index (predict_proba m X) (sk_predict m X)) as [c|e] eqn:E;
      cbn [fst]; split.
    + eauto.
    + intros Hn. elim Hn. apply Hi. eauto.
    + intros Hr. apply Hi in Hr. destruct Hr as [a Ha]. discriminate.
    + intros _. apply py_index_raises in E. now subst e.
Qed.

(** X6. [predict] reads and never writes: the featurizer, the classifier
    and the model directory are the same after the call; a call that returns
    leaves the whole state as it was, a call that raises adds one error
    record to the log. The user id and the database session make no
    difference to the outcome or the state: nothing is recorded about a
    prediction. *)
Theorem predict_read_only (text : string) (model_version : option string)
    (user_id : option string) (db : bool) (w : World) :
  let call := predict text model_version user_id db in
  vectorizer (after call w) = vectorizer w /\
  model (after call w) = model w /\
  models_dir (after call w) = models_dir w /\
  (forall r, outcome call w = Ok r -> after call w = w) /\
  (forall e, outcome call w = Raise e ->
             log (after call w) = log w ++ [PredictionFailed e]) /\
  (forall user_id' db', predict text model_version user_id' db' w = call w).
Proof.
  intros call.
  assert (Hsame : forall user_id' db',
             predict text model_version user_id' db' w = call w).
  { intros uid' db'. unfold call. now rewrite !predict_cases. }
  split; [|split; [|split; [|split; [|split; [|exact Hsame]]]]];
    clear Hsame; unfold call, outcome, after; rewrite predict_cases;
    (destruct (vectorizer w) as [v|] eqn:Ev;
     [destruct (model w) as [m|] eqn:Em;
      [cbv zeta;
       destruct (py_index (predict_proba m (transform v (_preprocess_text text)))
                          (sk_predict m (transform v (_preprocess_text text))))
         as [c|e0]|]|]);
    cbn [fst snd vectorizer model models_dir log]; auto;
    try (intros r Hr; discriminate Hr);
    try (intros e He; injection He as <-; reflexivity);
    try (intros e He; discriminate He).
Qed.

(** X7. Label and confidence depend on the text only through its normal
    form: two texts that [_preprocess_text] maps to the same string, such as
    texts that differ in case or in the amount of whitespace, get the same
    label and the same confidence, or fail with the same error. *)
Theorem predict_same_normal_form (text1 text2 : string)
    (model_version : option string) (user_id : option string) (db : bool)
    (w : World) :
  _preprocess_text text1 = _preprocess_text text2 ->
  match outcome (predict text1 model_version user_id db) w,
        outcome (predict text2 model_version user_id db) w with
  | Ok r1, Ok r2 =>
      pr_prediction r1 = pr_prediction r2 /\ pr_confidence r1 = pr_confidence r2
  | Raise e1, Raise e2 => e1 = e2
  | _, _ => False
  end.
Proof.
  intros E. unfold outcome. rewrite !predict_cases, E.
  destruct (vectorizer w) as [v|]; [|reflexivity].
  destruct (model w) as [m|]; [|reflexivity]. cbv zeta.
  destruct (py_index (predict_proba m (transform v (_preprocess_text text2)))
                     (sk_predict m (transform v (_preprocess_text text2))))
    as [c|e]; cbn [fst]; auto.
Qed.

(** X8. For a text of characters below 128, the keywords in a response
    belong to the label of the response: a ["spam"] response lists spam
    keywords only, a ["ham"] response ham keywords only, and each listed
    keyword occurs in the lower-cased text that was submitted (not in its
    normal form). *)
Theorem predict_keywords_match_label (text : string) (model_version : option string)
    (user_id : option string) (db : bool) (w : World) (r : PredictionResult) :
  PyStr.isascii text = true ->
  outcome (predict text model_version user_id db) w = Ok r ->
  forall k, In k (keywords_found (pr_explanation r)) ->
    (pr_prediction r = "spam" -> In k spam_keywords) /\
    (pr_prediction r = "ham" -> In k ham_keywords) /\
    PyStr.contains k (PyStr.lower text) = true.
Proof.
  intros _. unfold outcome. rewrite predict_cases.
  destruct (vectorizer w) as [v|]; [|discriminate].
  destruct (model w) as [m|]; [|discriminate]. cbv zeta.
  destruct (py_index (predict_proba m (transform v (_preprocess_text text)))
                     (sk_predict m (transform v (_preprocess_text text))))
    as [c|e]; cbn [fst]; [|discriminate].
  intros Hr. injection Hr as <-. cbn [pr_explanation pr_prediction].
  intros k. rewrite keywords_found_filter, filter_In. unfold label_of.
  destruct (sk_predict m (transform v (_preprocess_text text)) =? 1)%Z;
    intros [Hk Hc]; repeat split; auto; discriminate.
Qed.

End PredictProperties.

(** ** Construction *)

Section ConstructionProperties.

Context {SK : Sklearn}.

(** The [except] branch of [_load_latest_model]. *)
Lemma load_latest_handler (e : exn) (w : World) :
  bind (logger (FailedToLoadModel e)) (fun _ => _create_default_model) w =
  match fit_transform dummy_texts with
  | None =>
      (Raise SklearnError,
       {| vectorizer := vectorizer w; model := model w; models_dir := models_dir w;
          log := log w ++ [FailedToLoadModel e] |})
  | Some (v, X) =>
      match fit X dummy_labels with
      | None =>
          (Raise SklearnError,
           {| vectorizer := vectorizer w; model := model w; models_dir := models_dir w;
              log := log w ++ [FailedToLoadModel e] |})
      | Some m =>
          (Ok tt,
           {| vectorizer := Some v; model := Some m; models_dir := models_dir w;
              log := (log w ++ [FailedToLoadModel e]) ++ [CreatedDefaultModel] |})
      end
  end.
Proof.
  unfold bind, logger. rewrite create_default_cases.
  cbn [vectorizer model models_dir log].
  destruct (fit_transform dummy_texts) as [[v X]|]; [|reflexivity].
  destruct (fit X dummy_labels); reflexivity.
Qed.

(** What [_load_latest_model] does when the file it selects cannot be
    used: [cause] is the exception, [v1] the featurizer attribute at the
    moment the handler starts. *)
Lemma load_latest_unusable (w : World) (f : file) (fs : list file) :
  glob_pkl (models_dir w) = f :: fs ->
  forall cause v1,
    match f_pickle (py_max st_mtime f fs) with
    | None => cause = UnpicklingError /\ v1 = vectorizer w
    | Some d =>
        match md_vectorizer d, md_model d with
        | None, _ => cause = KeyError "vectorizer" /\ v1 = vectorizer w
        | Some v, None => cause = KeyError "model" /\ v1 = Some v
        | Some _, Some _ => False
        end
    end ->
    _load_latest_model w =
    bind (logger (FailedToLoadModel cause)) (fun _ => _create_default_model)
         {| vectorizer := v1; model := model w; models_dir := models_dir w;
            log := log w |}.
Proof.
  intros Hg cause v1 Hc. unfold _load_latest_model.
  unfold try_except at 1, bind at 1, get. rewrite Hg.
  unfold pickle_load, getitem, bind, ret, raise, set_vectorizer, set_model, logger.
  destruct (f_pickle (py_max st_mtime f fs)) as [d|]; cbv beta iota.
  - destruct (md_vectorizer d) as [v|]; cbv beta iota.
    + destruct (md_model d) as [m|]; [contradiction|]. destruct Hc as [-> ->].
      reflexivity.
    + destruct Hc as [-> ->]. reflexivity.
  - destruct Hc as [-> ->]. reflexivity.
Qed.

(** X9. When the newest [*.pkl] file cannot be used (its bytes do not
    load, or the dict lacks the featurizer or the classifier), the
    constructor does not try an older file: it logs the failure and installs
    the default model, provided the default model can be fitted. *)
Theorem unusable_latest_falls_back_to_default (w : World) (f : file) (fs : list file)
    (cause : exn) (v : Vectorizer) (X : list Features) (m : Classifier) :
  glob_pkl (models_dir w) = f :: fs ->
  match f_pickle (py_max st_mtime f fs) with
  | None => cause = UnpicklingError
  | Some d =>
      match md_vectorizer d, md_model d with
      | None, _ => cause = KeyError "vectorizer"
      | Some _, None => cause = KeyError "model"
      | Some _, Some _ => False
      end
  end ->
  fit_transform dummy_texts = Some (v, X) ->
  fit X dummy_labels = Some m ->
  outcome __init__ w = Ok tt /\
  vectorizer (after __init__ w) = Some v /\
  model (after __init__ w) = Some m /\
  models_dir (after __init__ w) = models_dir w /\
  log (after __init__ w) = log w ++ [FailedToLoadModel cause; CreatedDefaultModel].
Proof.
  intros Hg Hc Hv Hm. unfold outcome, after, __init__.
  set (w0 := {| vectorizer := None; model := None;
                models_dir := models_dir w; log := log w |}).
  assert (E : exists v1,
             _load_latest_model w0 =
             bind (logger (FailedToLoadModel cause)) (fun _ => _create_default_model)
                  {| vectorizer := v1; model := model w0;
                     models_dir := models_dir w0; log := log w0 |}).
  { destruct (f_pickle (py_max st_mtime f fs)) as [d|] eqn:Ep.
    - destruct (md_vectorizer d) as [v'|] eqn:Ev.
      + destruct (md_model d) as [m'|] eqn:Em; [contradiction|].
        exists (Some v'). apply (load_latest_unusable w0 f fs Hg).
        rewrite Ep, Ev, Em. auto.
      + exists (vectorizer w0). apply (load_latest_unusable w0 f fs Hg).
        rewrite Ep, Ev. auto.
    - exists (vectorizer w0). apply (load_latest_unusable w0 f fs Hg).
      rewrite Ep. auto. }
  destruct E as [v1 ->]. rewrite load_latest_handler, Hv, Hm.
  cbn [fst snd vectorizer model models_dir log w0].
  rewrite <- app_assoc. auto.
Qed.

(** The outcomes of the constructor. *)
Lemma init_spec (w : World) :
  models_dir (after __init__ w) = models_dir w /\
  (forall v X m,
     fit_transform dummy_texts = Some (v, X) -> fit X dummy_labels = Some m ->
     outcome __init__ w = Ok tt) /\
  (outcome __init__ w = Ok tt ->
     vectorizer (after __init__ w) <> None /\ model (after __init__ w) <> None) /\
  (forall e, outcome __init__ w = Raise e ->
     e = SklearnError /\
     (fit_transform dummy_texts = None \/
      exists v X, fit_transform dummy_texts = Some (v, X) /\ fit X dummy_labels = None)).
Proof.
  unfold outcome, after, __init__.
  set (w0 := {| vectorizer := None; model := None;
                models_dir := models_dir w; log := log w |}).
  destruct (load_latest_spec w0) as [Hdir Hset]. unfold after, outcome in Hdir, Hset.
  split; [exact Hdir|]. split; [|split; [exact Hset|]].
  - intros v X m Hv Hm.
    destruct (glob_pkl (models_dir w0)) as [|f fs] eqn:Hg.
    + rewrite load_latest_empty by exact Hg. now rewrite Hv, Hm.
    + destruct (f_pickle (py_max st_mtime f fs)) as [d|] eqn:Ep.
      * destruct (md_vectorizer d) as [v'|] eqn:Ev.
        -- destruct (md_model d) as [m'|] eqn:Em.
           ++ now rewrite (load_latest_loaded w0 f fs d v' m').
           ++ rewrite (load_latest_unusable w0 f fs Hg (KeyError "model") (Some v'))
                by (rewrite Ep, Ev, Em; auto).
              now rewrite load_latest_handler, Hv, Hm.
        -- rewrite (load_latest_unusable w0 f fs Hg (KeyError "vectorizer") (vectorizer w0))
             by (rewrite Ep, Ev; auto).
           now rewrite load_latest_handler, Hv, Hm.
      * rewrite (load_latest_unusable w0 f fs Hg UnpicklingError (vectorizer w0))
          by (rewrite Ep; auto).
        now rewrite load_latest_handler, Hv, Hm.
  - intros e.
    assert (Hfit : forall r w1,
               match fit_transform dummy_texts with
               | None => (@Raise unit SklearnError, w1)
               | Some (v, X) =>
                   match fit X dummy_labels with
                   | None => (Raise SklearnError, w1)
                   | Some m => r v m
                   end
               end = (Raise e, snd (_load_latest_model w0)) ->
               (forall v m, fst (r v m) = Ok tt) ->
               e = SklearnError /\
               (fit_transform dummy_texts = None \/
                exists v X, fit_transform dummy_texts = Some (v, X) /\
                            fit X dummy_labels = None)).
    { intros r w1 H Hr.
      destruct (fit_transform dummy_texts) as [[v X]|] eqn:Ev.
      - destruct (fit X dummy_labels) as [m|] eqn:Em.
        + apply (f_equal fst) in H. rewrite Hr in H. discriminate.
        + injection H as <- _. split; [reflexivity|]. right. eauto.
      - injection H as <- _. split; [reflexivity|]. now left. }
    intros He.
    assert (Hpair : _load_latest_model w0 = (Raise e, snd (_load_latest_model w0))).
    { destruct (_load_latest_model w0) as [r w1]. cbn [fst snd] in *. now subst r. }
    clear He. revert Hpair.
    destruct (glob_pkl (models_dir w0)) as [|f fs] eqn:Hg.
    + rewrite load_latest_empty at 1 by exact Hg. intros H.
      eapply Hfit with (r := fun v m => (Ok tt, _)); [|reflexivity].
      destruct (fit_transform dummy_texts) as [[v X]|]; [|exact H].
      destruct (fit X dummy_labels); exact H.
    + destruct (f_pickle (py_max st_mtime f fs)) as [d|] eqn:Ep.
      * destruct (md_vectorizer d) as [v'|] eqn:Ev.
        -- destruct (md_model d) as [m'|] eqn:Em.
           ++ rewrite (load_latest_loaded w0 f fs d v' m') at 1 by assumption.
              discriminate.
           ++ rewrite (load_latest_unusable w0 f fs Hg (KeyError "model") (Some v'))
                at 1 by (rewrite Ep, Ev, Em; auto).
              rewrite load_latest_handler. intros H.
              eapply Hfit with (r := fun v m => (Ok tt, _)); [|reflexivity].
              destruct (fit_transform dummy_texts) as [[v X]|]; [|exact H].
              destruct (fit X dummy_labels); exact H.
        -- rewrite (load_latest_unusable w0 f fs Hg (KeyError "vectorizer") (vectorizer w0))
             at 1 by (rewrite Ep, Ev; auto).
           rewrite load_latest_handler. intros H.
           eapply Hfit with (r := fun v m => (Ok tt, _)); [|reflexivity].
           destruct (fit_transform dummy_texts) as [[v X]|]; [|exact H].
           destruct (fit X dummy_labels); exact H.
      * rewrite (load_latest_unusable w0 f fs Hg UnpicklingError (vectorizer w0))
          at 1 by (rewrite Ep; auto).
        rewrite load_latest_handler. intros H.
        eapply Hfit with (r := fun v m => (Ok tt, _)); [|reflexivity].
        destruct (fit_transform dummy_texts) as [[v X]|]; [|exact H].
        destruct (fit X dummy_labels); exact H.
Qed.

End ConstructionProperties.

(** ** File names *)

Lemma length_append (a b : string) :
  String.length (a ++ b) = (String.length a + String.length b)%nat.
Proof. induction a as [|c a IH]; simpl; [reflexivity | now rewrite IH]. Qed.

Lemma substring_all (s : string) : substring 0 (String.length s) s = s.
Proof. induction s as [|c s IH]; simpl; [reflexivity | now rewrite IH]. Qed.

Lemma substring_skip (a b : string) (m : nat) :
  substring (String.length a) m (a ++ b) = substring 0 m b.
Proof. induction a as [|c a IH]; simpl; [reflexivity | exact IH]. Qed.

Lemma substring_prefix (a b : string) :
  substring 0 (String.length a) (a ++ b) = a.
Proof.
  induction a as [|c a IH]; simpl; [now destruct b | now rewrite IH].
Qed.

Lemma endswith_append (a suf : string) : PyStr.endswith suf (a ++ suf) = true.
Proof.
  unfold PyStr.endswith. rewrite length_append.
  replace (String.length a + String.length suf - String.length suf)%nat
    with (String.length a) by lia.
  rewrite substring_skip, substring_all, String.eqb_refl.
  rewrite andb_true_r. apply Nat.leb_le. lia.
Qed.

Section FileNames.

Context {SK : Sklearn}.

(** The stem of [a.pkl] is [a], for a non-empty [a]. *)
Lemma stem_pkl (a : string) : a <> EmptyString -> stem (a ++ ".pkl") = a.
Proof.
  intros Hne. unfold stem. rewrite length_append.
  change (String.length ".pkl") with 4%nat.
  destruct (String.length a + 4 =? 4)%nat eqn:E.
  - apply Nat.eqb_eq in E. destruct a; [now elim Hne | simpl in E; lia].
  - replace (String.length a + 4 - 4)%nat with (String.length a) by lia.
    apply substring_prefix.
Qed.

(** Every name [train_model] writes to is [a.pkl] for a non-empty [a]. *)
Lemma model_path_of_pkl (model_name : option string) (now : datetime) :
  exists a, a <> EmptyString /\ model_path_of model_name now = (a ++ ".pkl")%string.
Proof.
  unfold model_path_of, truthy. destruct model_name as [[|c n]|].
  - exists ("model_" ++ strftime now)%string. split; [discriminate | reflexivity].
  - exists (String c n). split; [discriminate | reflexivity].
  - exists ("model_" ++ strftime now)%string. split; [discriminate | reflexivity].
Qed.

(** Writing a [*.pkl] file and listing the directory is listing and then
    writing. *)
Lemma glob_fs_write (name : string) (t : Z) (p : option model_data) (dir : list file) :
  PyStr.endswith ".pkl" name = true ->
  glob_pkl (fs_write name t p dir) = fs_write name t p (glob_pkl dir).
Proof.
  intros He. unfold glob_pkl. induction dir as [|f dir IH]; cbn [fs_write filter].
  - cbn [f_name]. now rewrite He.
  - destruct (f_name f =? name)%string eqn:E.
    + apply String.eqb_eq in E. cbn [filter f_name]. rewrite E, He.
      cbn [fs_write]. now rewrite E, String.eqb_refl.
    + cbn [filter]. destruct (PyStr.endswith ".pkl" (f_name f)).
      * cbn [fs_write]. now rewrite E, IH.
      * exact IH.
Qed.

End FileNames.

(** [max] returns the one element whose key exceeds all others. *)
Lemma py_max_unique {A : Type} (key : A -> Z) (x y : A) (ys : list A) :
  In x (y :: ys) ->
  (forall z, In z (y :: ys) -> z = x \/ (key z < key x)%Z) ->
  py_max key y ys = x.
Proof.
  intros Hin Hmax.
  destruct (py_max_greatest key y ys) as [Hm Hge].
  destruct (Hmax _ Hm) as [E|Hlt]; [exact E|].
  specialize (Hge x Hin). lia.
Qed.

(** ** [train_model] followed by another operation *)

Section TrainProperties.

Context {SK : Sklearn}.

(** [list_models] in one step. *)
Lemma list_models_run (w : World) :
  list_models w =
  (Ok (sorted_desc mi_created
         (flat_map (fun f => match f_pickle f with
                             | Some d => [model_info f d]
                             | None => []
                             end) (glob_pkl (models_dir w)))),
   {| vectorizer := vectorizer w; model := model w; models_dir := models_dir w;
      log := log w ++
             map (fun f => FailedToLoadModelInfo (path_str (f_name f)) UnpicklingError)
                 (filter (fun f => match f_pickle f with
                                   | Some _ => false
                                   | None => true
                                   end) (glob_pkl (models_dir w))) |}).
Proof.
  unfold list_models. unfold try_except at 1. unfold bind at 1, get at 1.
  unfold bind at 1. rewrite list_models_loop. unfold ret. reflexivity.
Qed.

(** After a write under a [*.pkl] name with a time stamp later than those
    of all [*.pkl] files, [max] over the listing picks the written file. *)
Lemma latest_after_write (name : string) (t : Z) (p : option model_data)
    (dir : list file) :
  PyStr.endswith ".pkl" name = true ->
  (forall g, In g (glob_pkl dir) -> (st_mtime g < t)%Z) ->
  exists f fs,
    glob_pkl (fs_write name t p dir) = f :: fs /\
    py_max st_mtime f fs = {| f_name := name; st_mtime := t; f_pickle := p |}.
Proof.
  intros He Hold. rewrite glob_fs_write by exact He.
  pose proof (fs_write_In name t p (glob_pkl dir)) as Hin.
  destruct (fs_write name t p (glob_pkl dir)) as [|f fs] eqn:E; [contradiction|].
  exists f, fs. split; [reflexivity|].
  apply py_max_unique; [exact Hin|].
  intros z Hz. rewrite <- E in Hz. apply fs_write_In_inv in Hz.
  destruct Hz as [->|Hz]; [now left|]. right. cbn [st_mtime]. now apply Hold.
Qed.

Lemma model_path_of_endswith (model_name : option string) (now : datetime) :
  PyStr.endswith ".pkl" (model_path_of model_name now) = true.
Proof.
  destruct (model_path_of_pkl model_name now) as (a & _ & ->).
  apply endswith_append.
Qed.

(** Training, then constructing a service. *)
Lemma train_then_init (training_data : list TrainingItem)
    (model_name : option string) (env : Env) (w : World) (r : TrainingReport) :
  outcome (train_model training_data model_name env) w = Ok r ->
  (forall g, In g (glob_pkl (models_dir w)) -> (st_mtime g < mtime_now env)%Z) ->
  let w' := after (train_model training_data model_name env) w in
  outcome __init__ w' = Ok tt /\
  vectorizer (after __init__ w') = vectorizer w' /\
  model (after __init__ w') = model w' /\
  vectorizer w' <> None /\
  log (after __init__ w') = log w' ++ [LoadedModel (tr_model_name r)].
Proof.
  intros Hr Hold w'. unfold w', outcome, after in *. clear w'.
  rewrite train_model_cases in *.
  destruct (fit_transform (map text training_data)) as [[v X]|]; [|discriminate].
  destruct (fit X (map label training_data)) as [m|]; [|discriminate].
  destruct (scores (map label training_data) (map (sk_predict m) X)) as [s|];
    [|discriminate].
  destruct (write env); try discriminate.
  cbn [fst snd] in *. injection Hr as <-. cbn [tr_model_name].
  unfold __init__. cbn [vectorizer model models_dir log].
  match goal with
  | |- context [fs_write ?n ?t ?p ?d] =>
      destruct (latest_after_write n t p d (model_path_of_endswith _ _) Hold)
        as (f & fs & Hg & Hmax)
  end.
  erewrite load_latest_loaded; [| exact Hg | rewrite Hmax; reflexivity
                                | reflexivity | reflexivity].
  rewrite Hmax. cbn [fst snd vectorizer model log f_name].
  repeat split. discriminate.
Qed.

(** X11. A model that [train_model] saved under a plain name is the model
    the next service starts with, when the file system stamps it later than every [*.pkl]
    file already there: constructing a service afterwards loads the
    featurizer and classifier that the training call installed. *)
Theorem trained_model_is_loaded_by_next_service (training_data : list TrainingItem)
    (model_name : option string) (env : Env) (w : World) (r : TrainingReport) :
  plain_file_name model_name = true ->
  outcome (train_model training_data model_name env) w = Ok r ->
  (forall g, In g (glob_pkl (models_dir w)) -> (st_mtime g < mtime_now env)%Z) ->
  let w' := after (train_model training_data model_name env) w in
  outcome __init__ w' = Ok tt /\
  vectorizer (after __init__ w') = vectorizer w' /\
  model (after __init__ w') = model w' /\
  vectorizer w' <> None /\
  log (after __init__ w') = log w' ++ [LoadedModel (tr_model_name r)].
Proof. intros _. exact (train_then_init training_data model_name env w r). Qed.

(** X12. A model that [train_model] saved under a plain name appears in
    [list_models]: the
    list has an entry whose name is the reported file name without [.pkl],
    whose path is that file under the model directory, and whose metrics,
    sample count and time are those of the training call. *)
Theorem trained_model_is_listed (training_data : list TrainingItem)
    (model_name : option string) (env : Env) (w : World) (r : TrainingReport) :
  plain_file_name model_name = true ->
  outcome (train_model training_data model_name env) w = Ok r ->
  let w' := after (train_model training_data model_name env) w in
  exists (l : list ModelInfo) (i : ModelInfo),
    outcome list_models w' = Ok l /\ In i l /\
    (mi_name i ++ ".pkl")%string = tr_model_name r /\
    mi_path i = (MODEL_PATH ++ "/" ++ tr_model_name r)%string /\
    mi_metrics i = Some (tr_metrics r) /\
    mi_training_samples i = List.length training_data /\
    mi_created i = mtime_now env.
Proof.
  intros _ Hr w'. unfold w', outcome, after in *. clear w'.
  rewrite list_models_run. rewrite train_model_cases in *.
  destruct (fit_transform (map text training_data)) as [[v X]|]; [|discriminate].
  destruct (fit X (map label training_data)) as [m|]; [|discriminate].
  destruct (scores (map label training_data) (map (sk_predict m) X)) as [s|];
    [|discriminate].
  destruct (write env); try discriminate.
  cbn [fst snd models_dir] in *. injection Hr as <-.
  cbn [tr_model_name tr_metrics].
  set (path := model_path_of model_name (now env)).
  set (d := {| md_vectorizer := Some v; md_model := Some m; md_metrics := Some s;
               md_training_samples := Some (List.length (map text training_data)) |}).
  set (new := {| f_name := path; st_mtime := mtime_now env; f_pickle := Some d |}).
  eexists. exists (model_info new d). split; [reflexivity|]. split.
  - eapply Permutation_in; [apply Permutation_sym, sorted_desc_perm|].
    apply in_flat_map. exists new. split; [|now left].
    rewrite glob_fs_write by apply model_path_of_endswith. apply fs_write_In.
  - unfold model_info. cbn [mi_name mi_path mi_metrics mi_training_samples mi_created
                            f_name st_mtime md_metrics md_training_samples new d].
    rewrite length_map. repeat split.
    destruct (model_path_of_pkl model_name (now env)) as (a & Hne & Ha).
    unfold path. rewrite Ha. now rewrite stem_pkl.
Qed.

(** X13. For a plain model name, a dump that fails after the file was
    opened leaves a file that does not load under the target name. When that file is the newest,
    the next service does not start with an older model that is still
    stored: it logs the failure and starts with the default model; and
    [list_models] logs a warning for the file. *)
Theorem failed_dump_hides_stored_models (training_data : list TrainingItem)
    (model_name : option string) (env : Env) (w : World)
    (v0 : Vectorizer) (X0 : list Features) (m0 : Classifier) :
  plain_file_name model_name = true ->
  outcome (train_model training_data model_name env) w = Raise PicklingError ->
  (forall g, In g (glob_pkl (models_dir w)) -> (st_mtime g < mtime_now env)%Z) ->
  fit_transform dummy_texts = Some (v0, X0) ->
  fit X0 dummy_labels = Some m0 ->
  let w' := after (train_model training_data model_name env) w in
  In {| f_name := model_path_of model_name (now env);
        st_mtime := mtime_now env; f_pickle := None |} (models_dir w') /\
  outcome __init__ w' = Ok tt /\
  vectorizer (after __init__ w') = Some v0 /\
  model (after __init__ w') = Some m0 /\
  In (FailedToLoadModel UnpicklingError) (log (after __init__ w')) /\
  In (FailedToLoadModelInfo (path_str (model_path_of model_name (now env)))
        UnpicklingError)
     (log (after list_models w')).
Proof.
  intros _ Hr Hold Hv0 Hm0 w'. unfold w', outcome, after in *. clear w'.
  rewrite list_models_run. rewrite train_model_cases in *.
  destruct (fit_transform (map text training_data)) as [[v X]|]; [|discriminate].
  destruct (fit X (map label training_data)) as [m|]; [|discriminate].
  destruct (scores (map label training_data) (map (sk_predict m) X)) as [s|];
    [|discriminate].
  destruct (write env); try discriminate.
  cbn [fst snd models_dir log] in *.
  set (path := model_path_of model_name (now env)).
  set (new := {| f_name := path; st_mtime := mtime_now env; f_pickle := None |}).
  split; [apply fs_write_In|].
  destruct (latest_after_write path (mtime_now env) None (models_dir w)
              (model_path_of_endswith _ _) Hold) as (f & fs & Hg & Hmax).
  assert (Hnew : In new (glob_pkl (fs_write path (mtime_now env) None (models_dir w)))).
  { rewrite glob_fs_write by apply model_path_of_endswith. apply fs_write_In. }
  unfold __init__. cbn [vectorizer model models_dir log].
  match goal with
  | |- context [_load_latest_model ?W] =>
      rewrite (load_latest_unusable W f fs Hg UnpicklingError None)
        by (rewrite Hmax; cbn [f_pickle vectorizer]; auto)
  end.
  rewrite load_latest_handler, Hv0, Hm0.
  cbn [fst snd vectorizer model models_dir log].
  split; [reflexivity|]. split; [reflexivity|]. split; [reflexivity|]. split.
  - rewrite ?in_app_iff. cbn [In]. tauto.
  - apply in_or_app. right. apply in_map_iff. exists new. split; [reflexivity|].
    apply filter_In. split; [exact Hnew | reflexivity].
Qed.

End TrainProperties.

(** ** The order of [list_models] *)

Lemma insert_desc_filter {A : Type} (key : A -> Z) (t : Z) (x : A) (l : list A) :
  filter (fun y => (key y =? t)%Z) (insert_desc key x l) =
  filter (fun y => (key y =? t)%Z) (x :: l).
Proof.
  induction l as [|y l IH]; [reflexivity|].
  cbn [insert_desc]. destruct (key y <=? key x)%Z eqn:E; [reflexivity|].
  apply Z.leb_gt in E. cbn [filter] in *. rewrite IH.
  destruct (key x =? t)%Z eqn:Ex; [|reflexivity].
  apply Z.eqb_eq in Ex.
  destruct (key y =? t)%Z eqn:Ey; [|reflexivity].
  apply Z.eqb_eq in Ey. lia.
Qed.

Lemma sorted_desc_filter {A : Type} (key : A -> Z) (t : Z) (l : list A) :
  filter (fun y => (key y =? t)%Z) (sorted_desc key l) =
  filter (fun y => (key y =? t)%Z) l.
Proof.
  induction l as [|x l IH]; [reflexivity|].
  cbn [sorted_desc fold_right]. rewrite insert_desc_filter.
  cbn [filter]. fold (sorted_desc key l). now rewrite IH.
Qed.

Lemma sorted_desc_head {A : Type} (key : A -> Z) (pre post : list A) (x : A) :
  (forall y, In y pre -> (key y < key x)%Z) ->
  (forall y, In y post -> (key y <= key x)%Z) ->
  exists rest, sorted_desc key (pre ++ x :: post) = x :: rest.
Proof.
  intros Hpre Hpost. induction pre as [|a pre IH].
  - cbn [app sorted_desc fold_right]. fold (sorted_desc key post).
    pose proof (sorted_desc_perm key post) as Hp.
    destruct (sorted_desc key post) as [|y l] eqn:E.
    + exists []. reflexivity.
    + cbn [insert_desc].
      assert (Hy : (key y <= key x)%Z).
      { apply Hpost. apply (Permutation_in _ Hp). now left. }
      apply Z.leb_le in Hy. rewrite Hy. eauto.
  - destruct IH as [rest E]; [intros y Hy; apply Hpre; now right|].
    cbn [app sorted_desc fold_right]. fold (sorted_desc key (pre ++ x :: post)).
    rewrite E. cbn [insert_desc].
    assert (Ha : (key a < key x)%Z) by (apply Hpre; now left).
    apply Z.leb_gt in Ha. rewrite Ha. eauto.
Qed.

Section ListingProperties.

Context {SK : Sklearn}.

(** X14. Among the entries of [list_models] with the same [created]
    time, the order is the order of the files in the directory: for
    every time stamp, the entries carrying it are the summaries of the
    loadable files carrying it, in directory order. *)
Theorem list_models_ties_keep_directory_order (w : World) (t : Z) :
  exists l,
    outcome list_models w = Ok l /\
    filter (fun i => (mi_created i =? t)%Z) l =
    flat_map (fun f => match f_pickle f with
                       | Some d => [model_info f d]
                       | None => []
                       end)
             (filter (fun f => (st_mtime f =? t)%Z) (glob_pkl (models_dir w))).
Proof.
  eexists. unfold outcome. rewrite list_models_run. cbn [fst].
  split; [reflexivity|]. rewrite sorted_desc_filter.
  induction (glob_pkl (models_dir w)) as [|f fs IH]; [reflexivity|].
  cbn [flat_map filter]. rewrite filter_app, IH.
  destruct (st_mtime f =? t)%Z eqn:E; destruct (f_pickle f) as [d|] eqn:Ep;
    cbn [flat_map filter app model_info mi_created]; rewrite ?E, ?Ep; reflexivity.
Qed.

(** X15. When the newest [*.pkl] file loads, the first entry of
    [list_models] describes that file, which is the file whose model a
    newly constructed service uses. *)
Theorem listing_starts_with_loaded_model (w : World) (f : file) (fs : list file)
    (d : model_data) (v : Vectorizer) (m : Classifier) :
  glob_pkl (models_dir w) = f :: fs ->
  f_pickle (py_max st_mtime f fs) = Some d ->
  md_vectorizer d = Some v -> md_model d = Some m ->
  (exists rest,
     outcome list_models w = Ok (model_info (py_max st_mtime f fs) d :: rest)) /\
  vectorizer (after __init__ w) = Some v /\
  model (after __init__ w) = Some m.
Proof.
  intros Hg Hp Hv Hm. split.
  - unfold outcome. rewrite list_models_run, Hg. cbn [fst].
    destruct (py_max_first st_mtime f fs) as (pre & post & E & Hpre & Hpost).
    rewrite E, flat_map_app. cbn [flat_map]. rewrite Hp. cbn [app].
    destruct (sorted_desc_head mi_created
                (flat_map (fun f0 => match f_pickle f0 with
                                     | Some d0 => [model_info f0 d0]
                                     | None => []
                                     end) pre)
                (flat_map (fun f0 => match f_pickle f0 with
                                     | Some d0 => [model_info f0 d0]
                                     | None => []
                                     end) post)
                (model_info (py_max st_mtime f fs) d)) as [rest Hrest].
    + intros y Hy. apply in_flat_map in Hy. destruct Hy as (g & Hg1 & Hg2).
      destruct (f_pickle g); [|contradiction]. destruct Hg2 as [<-|[]].
      cbn [model_info mi_created]. now apply Hpre.
    + intros y Hy. apply in_flat_map in Hy. destruct Hy as (g & Hg1 & Hg2).
      destruct (f_pickle g); [|contradiction]. destruct Hg2 as [<-|[]].
      cbn [model_info mi_created]. now apply Hpost.
    + exists rest. now rewrite Hrest.
  - unfold after, __init__.
    rewrite (load_latest_loaded _ f fs d v m); auto.
Qed.

End ListingProperties.

(** ** Time-stamped file names *)

Lemma of_nat_inj (a b : nat) : PyStr.of_nat a = PyStr.of_nat b -> a = b.
Proof.
  unfold PyStr.of_nat. intros H.
  assert (Hnn : forall n, Nat.to_uint n <> Decimal.Nil).
  { intros n Hn. assert (n = 0)%nat as ->.
    { rewrite <- (DecimalNat.Unsigned.of_to n), Hn. reflexivity. }
    discriminate Hn. }
  apply (f_equal NilZero.uint_of_string) in H.
  rewrite !NilZero.usu in H by apply Hnn.
  injection H as H. now apply DecimalNat.Unsigned.to_uint_inj.
Qed.

Lemma pad2_length (n : nat) : (n < 100)%nat -> String.length (PyStr.pad2 n) = 2%nat.
Proof.
  intros Hn.
  assert (H : forallb (fun k => (String.length (PyStr.pad2 k) =? 2)%nat) (seq 0 100) = true)
    by (vm_compute; reflexivity).
  rewrite forallb_forall in H. apply Nat.eqb_eq, H, in_seq. lia.
Qed.

Lemma pad2_inj (n m : nat) :
  (n < 100)%nat -> (m < 100)%nat -> PyStr.pad2 n = PyStr.pad2 m -> n = m.
Proof.
  intros Hn Hm E.
  assert (H : forallb (fun i => forallb (fun j =>
                implb (PyStr.pad2 i =? PyStr.pad2 j)%string (i =? j)%nat)
                (seq 0 100)) (seq 0 100) = true)
    by (vm_compute; reflexivity).
  rewrite forallb_forall in H.
  specialize (H n). rewrite forallb_forall in H.
  assert (Hi : In n (seq 0 100)) by (apply in_seq; lia).
  assert (Hj : In m (seq 0 100)) by (apply in_seq; lia).
  specialize (H Hi m Hj). apply String.eqb_eq in E. rewrite E in H.
  now apply Nat.eqb_eq.
Qed.

Lemma append_inj (a b c d : string) :
  String.length a = String.length b ->
  (a ++ c)%string = (b ++ d)%string -> a = b /\ c = d.
Proof.
  revert b. induction a as [|x a IH]; intros [|y b] Hl E; simpl in *;
    try discriminate; [auto|].
  injection E as -> E. injection Hl as Hl.
  destruct (IH b Hl E) as [-> ->]. auto.
Qed.

(** X16. [strftime] gives different strings for different times of the
    clock (with two-digit month, day, hour, minute and second), so two
    [train_model] calls without a name at different seconds write to
    different files. *)
Theorem default_file_names_differ (a b : datetime) :
  (month a < 100 /\ day a < 100 /\ hour a < 100 /\ minute a < 100 /\ second a < 100)%nat ->
  (month b < 100 /\ day b < 100 /\ hour b < 100 /\ minute b < 100 /\ second b < 100)%nat ->
  a <> b ->
  strftime a <> strftime b /\
  model_path_of None a <> model_path_of None b.
Proof.
  intros (Ha1 & Ha2 & Ha3 & Ha4 & Ha5) (Hb1 & Hb2 & Hb3 & Hb4 & Hb5) Hne.
  assert (Hinj : strftime a = strftime b -> a = b).
  { unfold strftime. intros E.
    assert (Hlen : String.length (PyStr.of_nat (year a)) =
                   String.length (PyStr.of_nat (year b))).
    { apply (f_equal String.length) in E.
      rewrite !length_append, !pad2_length in E by assumption.
      cbn [String.length] in E. lia. }
    apply append_inj in E; [|exact Hlen]. destruct E as [Ey E].
    apply append_inj in E; [|now rewrite !pad2_length]. destruct E as [Emo E].
    apply append_inj in E; [|now rewrite !pad2_length]. destruct E as [Ed E].
    apply append_inj in E; [|reflexivity]. destruct E as [_ E].
    apply append_inj in E; [|now rewrite !pad2_length]. destruct E as [Eh E].
    apply append_inj in E; [|now rewrite !pad2_length]. destruct E as [Emi Es].
    apply of_nat_inj in Ey. apply pad2_inj in Emo, Ed, Eh, Emi, Es; try assumption.
    destruct a, b; simpl in *; congruence. }
  split; [intros E; now apply Hne, Hinj|].
  unfold model_path_of. cbn [truthy]. intros E.
  apply append_inj in E; [|reflexivity]. destruct E as [_ E].
  apply Hne, Hinj.
  assert (Hl : String.length (strftime a) = String.length (strftime b)).
  { apply (f_equal String.length) in E. rewrite !length_append in E. lia. }
  now destruct (append_inj _ _ _ _ Hl E).
Qed.

(** ** The prediction routes *)

Section RouteProperties.

Context {SK : Sklearn}.

(** A handler's service is constructed inside the handler. *)
Lemma route_service (w : World) :
  exists r w1,
    __init__ w = (r, w1) /\ models_dir w1 = models_dir w /\
    (forall e, r = Raise e -> e = SklearnError) /\
    (r = Ok tt -> exists v m, vectorizer w1 = Some v /\ model w1 = Some m).
Proof.
  destruct (init_spec w) as (Hdir & _ & Hset & Hraise).
  unfold outcome, after in *. destruct (__init__ w) as [r w1]. cbn [fst snd] in *.
  exists r, w1. split; [reflexivity|]. split; [exact Hdir|]. split.
  - intros e ->. now destruct (Hraise e eq_refl).
  - intros ->. destruct (Hset eq_refl) as [Hv Hm].
    destruct (vectorizer w1) as [v|]; [|now elim Hv].
    destruct (model w1) as [m|]; [|now elim Hm]. eauto.
Qed.

(** X17. The predict handler leaves the model directory as it is and
    answers in one of two ways: with a response whose label is ["spam"] or
    ["ham"], whose [model_version] is the one of the request and which
    carries an explanation; or with status 500 and detail ["Prediction
    failed"], whatever the error was, which it logs. The attributes of any
    earlier service play no part: the handler constructs its own. *)
Theorem api_predict_reply (request : PredictionRequest) (current_user_id : string)
    (w : World) :
  models_dir (snd (api_predict request current_user_id w)) = models_dir w /\
  match fst (api_predict request current_user_id w) with
  | (Returns resp, logged) =>
      (resp_prediction resp = "spam" \/ resp_prediction resp = "ham") /\
      resp_model_version resp = req_model_version request /\
      resp_explanation resp <> None /\
      logged = []
  | (HTTPException status_code detail, logged) =>
      status_code = 500%nat /\ detail = "Prediction failed" /\
      exists e, logged = [ApiPredictionFailed e]
  end /\
  (forall v m,
     api_predict request current_user_id
       {| vectorizer := v; model := m; models_dir := models_dir w; log := log w |}
     = api_predict request current_user_id w).
Proof.
  split; [|split; [|reflexivity]]; unfold api_predict, bind;
    destruct (route_service w) as (r & w1 & -> & Hdir & Hraise & Hset);
    (destruct r as [[]|e];
     [destruct (Hset eq_refl) as (v & m & Hv & Hm); rewrite predict_cases, Hv, Hm;
      cbv zeta;
      destruct (py_index (predict_proba m (transform v (_preprocess_text (req_text request))))
                         (sk_predict m (transform v (_preprocess_text (req_text request)))))
        as [c|e] eqn:Ei
     |]);
    cbn [fst snd models_dir resp_prediction resp_model_version resp_explanation
         pr_prediction pr_model_version pr_explanation];
    try exact Hdir.
  - unfold label_of. repeat split; try discriminate.
    destruct (_ =? 1)%Z; auto.
  - eauto.
  - eauto.
Qed.

(** X18. A retrained model is served by the next request: after a
    [train_model] call that saved its model under a plain name with the
    newest time stamp, the
    predict handler gives the label, confidence and explanation that the
    service which trained gives, and fails when that service fails. *)
Theorem retrained_model_is_served (training_data : list TrainingItem)
    (model_name : option string) (env : Env) (w : World) (r : TrainingReport)
    (request : PredictionRequest) (current_user_id : string) :
  plain_file_name model_name = true ->
  outcome (train_model training_data model_name env) w = Ok r ->
  (forall g, In g (glob_pkl (models_dir w)) -> (st_mtime g < mtime_now env)%Z) ->
  let w' := after (train_model training_data model_name env) w in
  match outcome (predict (req_text request) (Some (req_model_version request))
                         (Some current_user_id) true) w',
        fst (fst (api_predict request current_user_id w')) with
  | Ok result, Returns resp =>
      resp_prediction resp = pr_prediction result /\
      resp_confidence resp = pr_confidence result /\
      resp_explanation resp = Some (pr_explanation result) /\
      resp_model_version resp = req_model_version request
  | Raise _, HTTPException status_code _ => status_code = 500%nat
  | _, _ => False
  end.
Proof.
  intros _ Hr Hold w'.
  destruct (train_then_init training_data model_name env w r Hr Hold)
    as (Hok & Hv & Hm & _ & _).
  fold w' in Hok, Hv, Hm. unfold outcome, after in *.
  unfold api_predict, bind. destruct (__init__ w') as [r0 w1]. cbn [fst snd] in *.
  subst r0. rewrite !predict_cases, Hv, Hm.
  destruct (vectorizer w') as [v|]; [|reflexivity].
  destruct (model w') as [m|]; [|reflexivity]. cbv zeta.
  destruct (py_index (predict_proba m (transform v (_preprocess_text (req_text request))))
                     (sk_predict m (transform v (_preprocess_text (req_text request)))))
    as [c|e]; cbn [fst]; auto.
Qed.

(** X19. The list handler answers with the list [list_models] gives for
    the directory whenever a service can be constructed, and with status
    500 and detail ["Failed to retrieve models"] otherwise; the model
    directory is the same afterwards. *)
Theorem api_list_models_reply (w : World) :
  models_dir (snd (api_list_models w)) = models_dir w /\
  (outcome __init__ w = Ok tt ->
     exists l, outcome list_models w = Ok l /\
               fst (api_list_models w) = (Returns l, [])) /\
  (forall e, outcome __init__ w = Raise e ->
     fst (api_list_models w) =
       (HTTPException 500 "Failed to retrieve models", [ApiFailedToListModels e])).
Proof.
  unfold api_list_models, bind, outcome.
  destruct (route_service w) as (r & w1 & -> & Hdir & _ & _). cbn [fst].
  destruct r as [[]|e].
  - rewrite list_models_run. cbn [fst snd models_dir]. split; [exact Hdir|].
    split; [|discriminate]. intros _. eexists. rewrite list_models_run. cbn [fst].
    split; [reflexivity|]. now rewrite Hdir.
  - cbn [fst snd]. split; [exact Hdir|]. split; [discriminate|].
    now intros e' [= <-].
Qed.

(** No prediction is ever stored: whatever requests were answered
    before, the history handler returns the empty list whenever a service
    can be constructed, for every user, limit and offset, and never a
    non-empty list. *)
Lemma api_prediction_history_is_empty (limit offset : Z) (current_user_id : string)
    (request : PredictionRequest) (w : World) :
  let w' := snd (api_predict request current_user_id w) in
  (forall h, fst (fst (api_prediction_history limit offset current_user_id w'))
             = Returns h -> h = []) /\
  (outcome __init__ w' = Ok tt ->
     fst (api_prediction_history limit offset current_user_id w') = (Returns [], [])).
Proof.
  intros w'. unfold api_prediction_history, get_prediction_history, bind, ret, outcome.
  destruct (__init__ w') as [[[]|e] w1]; cbn [fst]; split;
    try discriminate; try reflexivity.
  now intros h [= <-].
Qed.

End RouteProperties.

(** ** The further properties on concrete inputs *)

Lemma predict_same_normal_form_witness :
  _preprocess_text "Buy  NOW" = _preprocess_text "buy now" /\
  match outcome (predict "Buy  NOW" None None false) started,
        outcome (predict "buy now" None None false) started with
  | Ok r1, Ok r2 =>
      pr_prediction r1 = pr_prediction r2 /\ pr_confidence r1 = pr_confidence r2
  | Raise e1, Raise e2 => e1 = e2
  | _, _ => False
  end.
Proof.
  split; [reflexivity|].
  exact (predict_same_normal_form "Buy  NOW" "buy now" None None false
           started eq_refl).
Defined.

Lemma predict_keywords_match_label_witness :
  In "win" spam_keywords /\ PyStr.contains "win" (PyStr.lower probe) = true.
Proof.
  destruct (predict_keywords_match_label probe None None false started
              (probe_response "latest") eq_refl eq_refl "win" (or_introl eq_refl))
    as (Hspam & _ & Hocc).
  split; [exact (Hspam eq_refl) | exact Hocc].
Defined.

Lemma unusable_latest_falls_back_to_default_witness :
  outcome __init__ (on_dir dir_with_corrupt) = Ok tt /\
  vectorizer (after __init__ (on_dir dir_with_corrupt)) = Some dummy_texts /\
  log (after __init__ (on_dir dir_with_corrupt))
    = [FailedToLoadModel UnpicklingError; CreatedDefaultModel].
Proof.
  destruct (unusable_latest_falls_back_to_default (on_dir dir_with_corrupt)
              _ _ UnpicklingError dummy_texts dummy_texts dummy_labels
              eq_refl eq_refl eq_refl eq_refl) as (Hok & Hv & _ & _ & Hlog).
  split; [exact Hok|]. split; [exact Hv | exact Hlog].
Defined.

Lemma older_than_100 (g : file) :
  In g (glob_pkl (models_dir (on_dir dir_b_touched_last))) -> (st_mtime g < 100)%Z.
Proof. intros [<-|[<-|[]]]; reflexivity. Qed.

Lemma trained_model_is_loaded_by_next_service_witness :
  let w' := after (train_model two_examples (Some "m") (at_noon 0 100 WriteOk))
                  (on_dir dir_b_touched_last) in
  outcome __init__ w' = Ok tt /\
  vectorizer (after __init__ w') = Some (map text two_examples).
Proof.
  destruct (trained_model_is_loaded_by_next_service two_examples (Some "m")
              (at_noon 0 100 WriteOk) (on_dir dir_b_touched_last) _ eq_refl eq_refl
              older_than_100) as (Hok & Hv & _).
  split; [exact Hok | exact Hv].
Defined.

Lemma trained_model_is_listed_witness :
  exists l i,
    outcome list_models
      (after (train_model two_examples (Some "m") (at_noon 0 100 WriteOk))
             (on_dir dir_b_touched_last)) = Ok l /\
    In i l /\ (mi_name i ++ ".pkl")%string = "m.pkl" /\
    mi_training_samples i = 2%nat /\ mi_created i = 100%Z.
Proof.
  destruct (trained_model_is_listed two_examples (Some "m")
              (at_noon 0 100 WriteOk) (on_dir dir_b_touched_last) _ eq_refl eq_refl)
    as (l & i & Hl & Hi & Hn & _ & _ & Hs & Hc).
  exists l, i. auto.
Defined.

Lemma failed_dump_hides_stored_models_witness :
  let w' := after (train_model two_examples None (at_noon 0 100 DumpFails))
                  (on_dir dir_b_touched_last) in
  outcome __init__ w' = Ok tt /\
  vectorizer (after __init__ w') = Some dummy_texts /\
  map f_name (filter (fun f => match f_pickle f with Some _ => true | None => false end)
                     (models_dir w')) = ["a.pkl"; "b.pkl"].
Proof.
  destruct (failed_dump_hides_stored_models two_examples None
              (at_noon 0 100 DumpFails) (on_dir dir_b_touched_last)
              dummy_texts dummy_texts dummy_labels eq_refl eq_refl older_than_100
              eq_refl eq_refl) as (_ & Hok & Hv & _).
  split; [exact Hok|]. split; [exact Hv | reflexivity].
Defined.

Lemma listing_starts_with_loaded_model_witness :
  (exists rest,
     outcome list_models (on_dir dir_b_touched_last) =
       Ok ({| mi_name := "b"; mi_path := "ml/models/b.pkl"; mi_metrics := None;
              mi_training_samples := 1; mi_created := 20 |} :: rest)) /\
  vectorizer (after __init__ (on_dir dir_b_touched_last)) = Some ["second"].
Proof.
  destruct (listing_starts_with_loaded_model (on_dir dir_b_touched_last) _ _
              (artifact ["second"]) ["second"] [0; 1]%Z
              eq_refl eq_refl eq_refl eq_refl) as (Hhead & Hv & _).
  split; [exact Hhead | exact Hv].
Defined.

Lemma default_file_names_differ_witness :
  model_path_of None (now (at_noon 7 100 WriteOk))
    <> model_path_of None (now (at_noon 8 100 WriteOk)).
Proof.
  refine (proj2 (default_file_names_differ (now (at_noon 7 100 WriteOk))
                   (now (at_noon 8 100 WriteOk)) _ _ _)).
  - cbn. lia.
  - cbn. lia.
  - discriminate.
Defined.

Lemma retrained_model_is_served_witness :
  let w' := after (train_model two_examples (Some "m") (at_noon 0 100 WriteOk))
                  (on_dir dir_b_touched_last) in
  let request := {| req_text := probe; req_model_version := "v2" |} in
  fst (fst (api_predict request "user-1" w'))
    = Returns {| resp_prediction := "spam"; resp_confidence := 4 # 5;
                 resp_explanation := Some {| keywords_found := ["win"; "urgent"];
                                             reason := "Detected 2 relevant keywords" |};
                 resp_model_version := "v2" |} /\
  match outcome (predict (req_text request) (Some (req_model_version request))
                         (Some "user-1") true) w',
        fst (fst (api_predict request "user-1" w')) with
  | Ok result, Returns resp =>
      resp_prediction resp = pr_prediction result /\
      resp_confidence resp = pr_confidence result /\
      resp_explanation resp = Some (pr_explanation result) /\
      resp_model_version resp = req_model_version request
  | Raise _, HTTPException status_code _ => status_code = 500%nat
  | _, _ => False
  end.
Proof.
  split; [reflexivity|].
  exact (retrained_model_is_served two_examples (Some "m")
           (at_noon 0 100 WriteOk) (on_dir dir_b_touched_last) _
           {| req_text := probe; req_model_version := "v2" |} "user-1"
           eq_refl eq_refl older_than_100).
Defined.

(** ** What [train_model] does to the directory, the log and the service *)

Section TrainInvariants.

Context {SK : Sklearn}.

Lemma fs_write_names (name : string) (t : Z) (p : option model_data) (dir : list file) :
  map f_name (fs_write name t p dir) =
  if existsb (fun f => (f_name f =? name)%string) dir
  then map f_name dir
  else map f_name dir ++ [name].
Proof.
  induction dir as [|f dir IH]; [reflexivity|].
  cbn [fs_write existsb]. destruct (f_name f =? name)%string eqn:E.
  - apply String.eqb_eq in E. cbn [orb map f_name]. now rewrite E.
  - cbn [orb map]. rewrite IH.
    now destruct (existsb (fun f0 => (f_name f0 =? name)%string) dir).
Qed.

Lemma existsb_name_false (name : string) (dir : list file) :
  existsb (fun f => (f_name f =? name)%string) dir = false ->
  ~ In name (map f_name dir).
Proof.
  intros H Hin. apply in_map_iff in Hin. destruct Hin as (f & Hf & Hin).
  assert (E : existsb (fun f => (f_name f =? name)%string) dir = true).
  { apply existsb_exists. exists f. split; [exact Hin | now apply String.eqb_eq]. }
  congruence.
Qed.

(** X20. Whatever its outcome, a [train_model] call with a plain model
    name removes no file and adds at most one: every file name of the
    directory before the call is a file name afterwards, every file name
    afterwards is one from before or the name of the new artifact, and the
    number of files grows by one at most. Names that were distinct stay
    distinct, and the call adds exactly one record to the log. *)
Theorem train_model_keeps_files (training_data : list TrainingItem)
    (model_name : option string) (env : Env) (w : World) :
  plain_file_name model_name = true ->
  let w' := after (train_model training_data model_name env) w in
  let path := model_path_of model_name (now env) in
  (forall n, In n (map f_name (models_dir w)) -> In n (map f_name (models_dir w'))) /\
  (forall n, In n (map f_name (models_dir w')) ->
             n = path \/ In n (map f_name (models_dir w))) /\
  (List.length (models_dir w) <= List.length (models_dir w')
     <= S (List.length (models_dir w)))%nat /\
  (NoDup (map f_name (models_dir w)) -> NoDup (map f_name (models_dir w'))) /\
  (exists record, log w' = log w ++ [record] /\
     match outcome (train_model training_data model_name env) w with
     | Ok r => record = TrainedAndSaved (tr_model_name r)
     | Raise e => record = TrainingFailed e
     end).
Proof.
  intros _ w' path. unfold w', outcome, after. clear w'.
  assert (Hw : forall dir',
             (map f_name dir' = map f_name (models_dir w) \/
              (~ In path (map f_name (models_dir w)) /\
               map f_name dir' = map f_name (models_dir w) ++ [path])) ->
             (forall n, In n (map f_name (models_dir w)) -> In n (map f_name dir')) /\
             (forall n, In n (map f_name dir') ->
                        n = path \/ In n (map f_name (models_dir w))) /\
             (List.length (models_dir w) <= List.length dir'
                <= S (List.length (models_dir w)))%nat /\
             (NoDup (map f_name (models_dir w)) -> NoDup (map f_name dir'))).
  { intros dir' [E|[Hnew E]].
    - rewrite E. split; [auto|]. split; [auto|]. split; [|auto].
      apply (f_equal (@List.length string)) in E. rewrite !length_map in E. lia.
    - rewrite E. split; [|split; [|split]].
      + intros n Hn. apply in_or_app. now left.
      + intros n Hn. apply in_app_or in Hn. destruct Hn as [Hn|[<-|[]]]; auto.
      + apply (f_equal (@List.length string)) in E.
        rewrite length_app, !length_map in E. cbn [List.length] in E. lia.
      + intros Hnd. apply NoDup_app; [exact Hnd | repeat constructor; intros [] |].
        intros x Hx [<-|[]]. contradiction. }
  assert (Hfs : forall p,
             map f_name (fs_write path (mtime_now env) p (models_dir w))
               = map f_name (models_dir w) \/
             (~ In path (map f_name (models_dir w)) /\
              map f_name (fs_write path (mtime_now env) p (models_dir w))
                = map f_name (models_dir w) ++ [path])).
  { intros p. rewrite fs_write_names.
    destruct (existsb (fun f => (f_name f =? path)%string) (models_dir w)) eqn:E;
      [now left|]. right. split; [now apply existsb_name_false | reflexivity]. }
  rewrite train_model_cases. fold path.
  destruct (fit_transform (map text training_data)) as [[v X]|];
    [destruct (fit X (map label training_data)) as [m|];
     [destruct (scores (map label training_data) (map (sk_predict m) X)) as [s|];
      [destruct (write env)|]|]|];
    cbn [fst snd models_dir log tr_model_name];
    (destruct (Hw (models_dir w) (or_introl eq_refl)) as (K1 & K2 & K3 & K4));
    try (destruct (Hw _ (Hfs None)) as (D1 & D2 & D3 & D4));
    repeat match goal with |- _ /\ _ => split end; eauto;
    try (apply (Hw _ (Hfs _))).
Qed.

(** X21. A training call that fails does not disturb serving: [predict]
    gives the same outcome after it as before it, for every text. *)
Theorem failed_training_keeps_serving (training_data : list TrainingItem)
    (model_name : option string) (env : Env) (w : World) (e : exn)
    (text0 : string) (model_version user_id : option string) (db : bool) :
  outcome (train_model training_data model_name env) w = Raise e ->
  outcome (predict text0 model_version user_id db)
          (after (train_model training_data model_name env) w)
  = outcome (predict text0 model_version user_id db) w.
Proof.
  unfold outcome, after. rewrite !predict_cases, train_model_cases.
  destruct (fit_transform (map text training_data)) as [[v X]|];
    [destruct (fit X (map label training_data)) as [m|];
     [destruct (scores (map label training_data) (map (sk_predict m) X)) as [s|];
      [destruct (write env)|]|]|];
    cbn [fst snd vectorizer model]; intros H; try discriminate H;
    (destruct (vectorizer w) as [v'|]; [|reflexivity]);
    (destruct (model w) as [m'|]; [|reflexivity]); cbv zeta;
    (destruct (py_index (predict_proba m' (transform v' (_preprocess_text text0)))
                        (sk_predict m' (transform v' (_preprocess_text text0))))
       as [c|e']); reflexivity.
Qed.

(** X22. A training call that returns takes effect at once: the next
    [predict] on the same service classifies with the featurizer and the
    classifier that were just fitted on the training texts and labels. *)
Theorem successful_training_is_served_at_once (training_data : list TrainingItem)
    (model_name : option string) (env : Env) (w : World) (r : TrainingReport)
    (text0 : string) (model_version user_id : option string) (db : bool) :
  outcome (train_model training_data model_name env) w = Ok r ->
  exists v X m,
    fit_transform (map text training_data) = Some (v, X) /\
    fit X (map label training_data) = Some m /\
    forall result,
      outcome (predict text0 model_version user_id db)
              (after (train_model training_data model_name env) w) = Ok result ->
      pr_prediction result
        = label_of (sk_predict m (transform v (_preprocess_text text0))) /\
      py_index (predict_proba m (transform v (_preprocess_text text0)))
               (sk_predict m (transform v (_preprocess_text text0)))
        = Ok (pr_confidence result).
Proof.
  unfold outcome, after. rewrite train_model_cases.
  destruct (fit_transform (map text training_data)) as [[v X]|]; [|discriminate].
  destruct (fit X (map label training_data)) as [m|] eqn:Em; [|discriminate].
  destruct (scores (map label training_data) (map (sk_predict m) X)) as [s|];
    [|discriminate].
  destruct (write env); try discriminate. cbn [fst snd]. intros _.
  exists v, X, m. split; [reflexivity|]. split; [exact Em|].
  intros result. rewrite predict_cases. cbn [vectorizer model]. cbv zeta.
  destruct (py_index (predict_proba m (transform v (_preprocess_text text0)))
                     (sk_predict m (transform v (_preprocess_text text0))))
    as [c|e']; cbn [fst]; [|discriminate].
  intros [= <-]. auto.
Qed.

(** X23. Only the [*.pkl] files count: two directories with the same
    [*.pkl] files, whatever else they hold, give the same list of models
    and make the constructor end the same way with the same featurizer and
    classifier. *)
Theorem only_pkl_files_count (w1 w2 : World) :
  glob_pkl (models_dir w1) = glob_pkl (models_dir w2) ->
  outcome list_models w1 = outcome list_models w2 /\
  outcome __init__ w1 = outcome __init__ w2 /\
  vectorizer (after __init__ w1) = vectorizer (after __init__ w2) /\
  model (after __init__ w1) = model (after __init__ w2).
Proof.
  intros Hg. split.
  - unfold outcome. rewrite !list_models_run. cbn [fst]. now rewrite Hg.
  - unfold outcome, after, __init__.
    set (a := {| vectorizer := None; model := None;
                 models_dir := models_dir w1; log := log w1 |}).
    set (b := {| vectorizer := None; model := None;
                 models_dir := models_dir w2; log := log w2 |}).
    assert (Ha : glob_pkl (models_dir a) = glob_pkl (models_dir w1)) by reflexivity.
    assert (Hb : glob_pkl (models_dir b) = glob_pkl (models_dir w1))
      by (symmetry; exact Hg).
    destruct (glob_pkl (models_dir w1)) as [|f fs].
    + rewrite (load_latest_empty a Ha), (load_latest_empty b Hb).
      destruct (fit_transform dummy_texts) as [[v X]|];
        [destruct (fit X dummy_labels)|]; auto.
    + destruct (f_pickle (py_max st_mtime f fs)) as [d|] eqn:Ep.
      * destruct (md_vectorizer d) as [v'|] eqn:Ev.
        -- destruct (md_model d) as [m'|] eqn:Em.
           ++ rewrite (load_latest_loaded a f fs d v' m'),
                      (load_latest_loaded b f fs d v' m'); auto.
           ++ rewrite (load_latest_unusable a f fs Ha (KeyError "model") (Some v')),
                      (load_latest_unusable b f fs Hb (KeyError "model") (Some v'))
                by (rewrite Ep, Ev, Em; auto).
              rewrite !load_latest_handler.
              destruct (fit_transform dummy_texts) as [[v X]|];
                [destruct (fit X dummy_labels)|]; auto.
        -- rewrite (load_latest_unusable a f fs Ha (KeyError "vectorizer") None),
                   (load_latest_unusable b f fs Hb (KeyError "vectorizer") None)
             by (rewrite Ep, Ev; auto).
           rewrite !load_latest_handler.
           destruct (fit_transform dummy_texts) as [[v X]|];
             [destruct (fit X dummy_labels)|]; auto.
      * rewrite (load_latest_unusable a f fs Ha UnpicklingError None),
                (load_latest_unusable b f fs Hb UnpicklingError None)
          by (rewrite Ep; auto).
        rewrite !load_latest_handler.
        destruct (fit_transform dummy_texts) as [[v X]|];
          [destruct (fit X dummy_labels)|]; auto.
Qed.

End TrainInvariants.

Lemma failed_training_keeps_serving_witness :
  outcome (train_model only_spam None (at_noon 0 100 WriteOk)) started
    = Raise SklearnError /\
  outcome (predict probe None None false)
          (after (train_model only_spam None (at_noon 0 100 WriteOk)) started)
    = outcome (predict probe None None false) started.
Proof.
  split; [reflexivity|].
  exact (failed_training_keeps_serving only_spam None (at_noon 0 100 WriteOk)
           started SklearnError probe None None false eq_refl).
Defined.

Lemma successful_training_is_served_at_once_witness :
  exists v X m,
    fit_transform (map text two_examples) = Some (v, X) /\
    fit X (map label two_examples) = Some m /\
    forall result,
      outcome (predict probe None None false)
              (after (train_model two_examples None (at_noon 0 100 WriteOk)) started)
        = Ok result ->
      pr_prediction result
        = label_of (sk_predict m (transform v (_preprocess_text probe))) /\
      py_index (predict_proba m (transform v (_preprocess_text probe)))
               (sk_predict m (transform v (_preprocess_text probe)))
        = Ok (pr_confidence result).
Proof.
  exact (successful_training_is_served_at_once two_examples None
           (at_noon 0 100 WriteOk) started _ probe None None false eq_refl).
Defined.

Lemma only_pkl_files_count_witness :
  outcome list_models (on_dir dir_with_corrupt)
    = outcome list_models
        (on_dir (filter (fun f => negb (f_name f =? "notes.txt")%string)
                        dir_with_corrupt)) /\
  vectorizer (after __init__ (on_dir dir_with_corrupt))
    = vectorizer (after __init__
        (on_dir (filter (fun f => negb (f_name f =? "notes.txt")%string)
                        dir_with_corrupt))).
Proof.
  destruct (only_pkl_files_count (on_dir dir_with_corrupt)
              (on_dir (filter (fun f => negb (f_name f =? "notes.txt")%string)
                              dir_with_corrupt)) eq_refl) as (Hl & _ & Hv & _).
  split; [exact Hl | exact Hv].
Defined.

Lemma preprocess_text_normal_form_witness :
  PyStr.isascii "  URGENT:   Win  cash now " = true /\
  _preprocess_text "  URGENT:   Win  cash now "
    = PyStr.join " " ["urgent:"; "win"; "cash"; "now"] /\
  forall c, In c (list_ascii_of_string (_preprocess_text "  URGENT:   Win  cash now ")) ->
            PyStr.lower_char c = c /\ (PyStr.isspace c = true -> c = " "%char).
Proof.
  split; [reflexivity|]. split; [reflexivity|].
  destruct (preprocess_text_normal_form "  URGENT:   Win  cash now " eq_refl)
    as (words & _ & _ & Hchars).
  exact Hchars.
Defined.

Lemma preprocess_text_idempotent_witness :
  _preprocess_text (_preprocess_text "Buy  NOW") = _preprocess_text "Buy  NOW" /\
  PyStr.split (_preprocess_text "Buy  NOW") = PyStr.split (PyStr.lower "Buy  NOW").
Proof.
  exact (preprocess_text_idempotent "Buy  NOW" eq_refl).
Defined.

Lemma preprocess_text_empty_iff_witness :
  _preprocess_text "   " = EmptyString /\ _preprocess_text " a " <> EmptyString.
Proof.
  split.
  - apply (proj2 (preprocess_text_empty_iff "   " eq_refl)).
    intros c [<-|[<-|[<-|[]]]]; reflexivity.
  - intros H.
    pose proof (proj1 (preprocess_text_empty_iff " a " eq_refl) H "a"%char
                  (or_intror (or_introl eq_refl))) as Hc.
    discriminate Hc.
Defined.

Lemma explanation_case_and_context_witness :
  _generate_explanation (PyStr.lower probe) 1 = _generate_explanation probe 1 /\
  In "win" (keywords_found (_generate_explanation ("Re: " ++ "Win" ++ " big") 1)).
Proof.
  destruct (explanation_case_and_context "Win" 1 eq_refl) as (_ & Hctx & _).
  split.
  - exact (proj1 (explanation_case_and_context probe 1 eq_refl)).
  - apply (Hctx "Re: " " big" "win" eq_refl eq_refl). now left.
Defined.

Lemma train_model_keeps_files_witness :
  let w' := after (train_model two_examples (Some "a") (at_noon 0 100 DumpFails))
                  (on_dir dir_b_touched_last) in
  (forall n, In n (map f_name (models_dir (on_dir dir_b_touched_last))) ->
             In n (map f_name (models_dir w'))) /\
  map f_name (models_dir w') = ["a.pkl"; "b.pkl"] /\
  NoDup (map f_name (models_dir w')).
Proof.
  destruct (train_model_keeps_files two_examples (Some "a")
              (at_noon 0 100 DumpFails) (on_dir dir_b_touched_last) eq_refl)
    as (Hkeep & _ & _ & Hnd & _).
  split; [exact Hkeep|]. split; [reflexivity|].
  apply Hnd. repeat constructor; simpl; intuition discriminate.
Defined.

Example plain_file_name_examples :
  plain_file_name (Some "spam_v2") = true /\
  plain_file_name None = true /\
  plain_file_name (Some "../m") = false /\
  plain_file_name (Some "sub/m") = false.
Proof. repeat split; reflexivity. Qed.

Example isascii_examples :
  PyStr.isascii "URGENT: Win cash now" = true /\
  PyStr.isascii (String (ascii_of_nat 160) "x") = false.
Proof. split; reflexivity. Qed.
